(** * The Basilisp compiler driver ([basilisp.lang.compiler])

    A shallow embedding of [src/basilisp/lang/compiler/__init__.py]: the
    option constructor [compiler_opts], the incremental loader
    [_incremental_compile_module], the bootstrap step [_bootstrap_module] and
    the three drivers [compile_and_exec_form], [compile_module] and
    [compile_bytecode].

    The analyzer, the generator, the optimizer, the runtime and the Python
    interpreter itself ([compile], [exec], calling an object) live in other
    modules; they are taken as the operations of an abstract [Host].  Python
    code run by the interpreter may raise and may change anything, so every
    such operation is a function from the state of the process to an outcome
    and a new state. *)

From stdpp Require Import base option list strings pretty gmap functions.

Open Scope string_scope.
Open Scope list_scope.

(** ** Compiler options *)

Module Options.

(** The keyword constants imported from the analyzer and the generator. *)
Inductive OptName :=
| GENERATE_AUTO_INLINES
| INLINE_FUNCTIONS
| WARN_ON_SHADOWED_NAME
| WARN_ON_SHADOWED_VAR
| WARN_ON_UNUSED_NAMES
| WARN_ON_NON_DYNAMIC_SET
| USE_VAR_INDIRECTION
| WARN_ON_VAR_INDIRECTION.

#[global] Instance OptName_eq_dec : EqDecision OptName.
Proof. solve_decision. Defined.

Definition OptName_code (k : OptName) : nat :=
  match k with
  | GENERATE_AUTO_INLINES => 0
  | INLINE_FUNCTIONS => 1
  | WARN_ON_SHADOWED_NAME => 2
  | WARN_ON_SHADOWED_VAR => 3
  | WARN_ON_UNUSED_NAMES => 4
  | WARN_ON_NON_DYNAMIC_SET => 5
  | USE_VAR_INDIRECTION => 6
  | WARN_ON_VAR_INDIRECTION => 7
  end.

Definition OptName_of_code (n : nat) : OptName :=
  match n with
  | 0 => GENERATE_AUTO_INLINES
  | 1 => INLINE_FUNCTIONS
  | 2 => WARN_ON_SHADOWED_NAME
  | 3 => WARN_ON_SHADOWED_VAR
  | 4 => WARN_ON_UNUSED_NAMES
  | 5 => WARN_ON_NON_DYNAMIC_SET
  | 6 => USE_VAR_INDIRECTION
  | _ => WARN_ON_VAR_INDIRECTION
  end.

#[global] Instance OptName_countable : Countable OptName.
Proof.
  apply (inj_countable' OptName_code OptName_of_code).
  intros k. destruct k; reflexivity.
Defined.

(** [CompilerOpts]: a persistent map from option keywords to booleans. *)
Abbreviation CompilerOpts := (gmap OptName bool).

(** Python's [x or d] for [x : Optional[bool]] and a boolean [d]: the
    value of [x] when [x] is truthy, else [d].  [None] and [False] are both
    falsy. *)
Definition py_or (x : option bool) (d : bool) : bool :=
  match x with
  | Some true => true
  | Some false => d
  | None => d
  end.

(** [compiler_opts]: the dict literal, key by key, handed to [lmap.map]. *)
Definition compiler_opts
    (generate_auto_inlines inline_functions warn_on_shadowed_name
     warn_on_shadowed_var warn_on_unused_names warn_on_non_dynamic_set
     use_var_indirection warn_on_var_indirection : option bool)
  : CompilerOpts :=
  list_to_map
    [ (GENERATE_AUTO_INLINES, py_or generate_auto_inlines true);
      (INLINE_FUNCTIONS, py_or inline_functions true);
      (WARN_ON_SHADOWED_NAME, py_or warn_on_shadowed_name false);
      (WARN_ON_SHADOWED_VAR, py_or warn_on_shadowed_var false);
      (WARN_ON_UNUSED_NAMES, py_or warn_on_unused_names true);
      (WARN_ON_NON_DYNAMIC_SET, py_or warn_on_non_dynamic_set true);
      (USE_VAR_INDIRECTION, py_or use_var_indirection false);
      (WARN_ON_VAR_INDIRECTION, py_or warn_on_var_indirection true) ].

(** A call of [compiler_opts] by keyword: [kw k] is the argument passed
    for the option [k], [None] when the caller leaves it out. *)
Definition Overrides := OptName -> option bool.

Definition no_overrides : Overrides := fun _ => None.

Definition compiler_opts_kw (kw : Overrides) : CompilerOpts :=
  compiler_opts
    (kw GENERATE_AUTO_INLINES) (kw INLINE_FUNCTIONS)
    (kw WARN_ON_SHADOWED_NAME) (kw WARN_ON_SHADOWED_VAR)
    (kw WARN_ON_UNUSED_NAMES) (kw WARN_ON_NON_DYNAMIC_SET)
    (kw USE_VAR_INDIRECTION) (kw WARN_ON_VAR_INDIRECTION).

(** The defaults as the documentation lists them: the analyzer and
    generator toggles are on, except the two shadowing warnings and the
    use of Var indirection. *)
Definition documented_default (k : OptName) : bool :=
  match k with
  | WARN_ON_SHADOWED_NAME | WARN_ON_SHADOWED_VAR | USE_VAR_INDIRECTION => false
  | _ => true
  end.

End Options.

Import Options.

(** ** Python values, exceptions and the host *)

(** What a module's [__dict__] holds.  [None], [True] and [False] are told
    apart because the driver returns [None] and stores [True]; every other
    object is the host's. *)
Inductive Val (Obj : Type) :=
| VNone
| VBool (b : bool)
| VObj (o : Obj).
Arguments VNone {Obj}.
Arguments VBool {Obj} b.
Arguments VObj {Obj} o.

(** The exceptions the driver's own statements raise, and the host's. *)
Inductive Exn (HostExn : Type) :=
| AttributeError (name : string)
| KeyError (name : string)
| HostError (e : HostExn).
Arguments AttributeError {HostExn} name.
Arguments KeyError {HostExn} name.
Arguments HostError {HostExn} e.

(** How a Python call ends. *)
Inductive Outcome (E A : Type) :=
| Returns (a : A)
| Raises (e : E).
Arguments Returns {E A} a.
Arguments Raises {E A} e.

(** [GeneratedPyAST]: the generator's result, a main node and the nodes it
    depends on. *)
Record GeneratedPyAST (Node : Type) := mkGeneratedPyAST {
  node : Node;
  dependencies : list Node;
}.
Arguments mkGeneratedPyAST {Node} node dependencies.
Arguments node {Node} g.
Arguments dependencies {Node} g.

(** The types of the collaborators. *)
Class HostTypes := {
  Namespace : Type;            (* runtime.Namespace objects *)
  Namespace_eq_dec :: EqDecision Namespace;
  Obj : Type;                  (* Python objects other than None and the booleans *)
  HostExn : Type;              (* exceptions raised outside this module *)
  Form : Type;                 (* reader forms other than None *)
  LispAST : Type;              (* analyzer nodes *)
  Node : Type;                 (* ast.AST *)
  Code : Type;                 (* types.CodeType *)
  AnalyzerContext : Type;
  GeneratorContext : Type;
  PythonASTOptimizer : Type;
  Ext : Type;                  (* the rest of the process: Vars, contexts, id counter, stdout *)
}.

Section Model.
Context `{HT : HostTypes}.

(** [ReaderForm]: [None] is Python's [None], the form that reads as nil. *)
Definition ReaderForm := option Form.

(** The state of the process: the [__dict__] of the module of each
    namespace, and everything else. *)
Record World := mkWorld {
  w_modules : Namespace -> gmap string (Val Obj);
  w_ext : Ext;
}.

Definition with_module (ns : Namespace) (d : gmap string (Val Obj)) (w : World) : World :=
  {| w_modules := <[ns := d]> (w_modules w); w_ext := w_ext w |}.

(** The calls the driver makes, as they are observed from outside. *)
Inductive Event :=
| EvPreamble (ns : Namespace)             (* py_module_preamble(ns) *)
| EvAnalyze (form : ReaderForm)           (* analyze_form(actx, form) *)
| EvGenerate (lisp_ast : LispAST)         (* gen_py_ast(gctx, lisp_ast) *)
| EvAssembled (bytecode : Code)           (* compile(...) returned bytecode *)
| EvCollect (bytecode : Code)             (* collect_bytecode(bytecode) *)
| EvExec (ns : Namespace) (bytecode : Code)   (* exec(bytecode, ns.module.__dict__) *)
| EvSetBootstrapped (ns : Namespace)      (* ns.module.__basilisp_bootstrapped__ = True *)
| EvInvoke (ns : Namespace) (name : string)   (* getattr(ns.module, name)() *)
| EvDel (ns : Namespace) (name : string). (* del ns.module.__dict__[name] *)

Definition Result (A : Type) := Outcome (Exn HostExn) A.

(** A host call: outcome and new state. *)
Definition HostCall (A : Type) := World -> Result A * World.

(** A run of driver code: outcome, new state, and the calls made. *)
Definition M (A : Type) := World -> Result A * World * list Event.

Definition ret {A} (a : A) : M A := fun w => (Returns a, w, []).

Definition raise {A} (e : Exn HostExn) : M A := fun w => (Raises e, w, []).

Definition bind {A B} (m : M A) (k : A -> M B) : M B :=
  fun w =>
    let '(r, w1, t1) := m w in
    match r with
    | Returns a => let '(r2, w2, t2) := k a w1 in (r2, w2, t1 ++ t2)
    | Raises e => (Raises e, w1, t1)
    end.

(** [try: body finally: fin].  [fin] runs however [body] ends; when [fin]
    raises, its exception replaces the outcome of [body]. *)
Definition try_finally {A} (body : M A) (fin : M unit) : M A :=
  fun w =>
    let '(r, w1, t1) := body w in
    let '(rf, w2, t2) := fin w1 in
    (match rf with Returns _ => r | Raises e => Raises e end, w2, t1 ++ t2).

(** A host call made by the driver and recorded as [ev]. *)
Definition host (ev : Event) {A} (c : HostCall A) : M A :=
  fun w => let '(r, w1) := c w in (r, w1, [ev]).

(** A host call that is not recorded. *)
Definition quiet {A} (c : HostCall A) : M A :=
  fun w => let '(r, w1) := c w in (r, w1, []).

(** A call that only computes: it returns or raises, and changes nothing. *)
Definition pure {A} (r : Result A) : M A := fun w => (r, w, []).

Definition outcome {A} (x : Result A * World * list Event) : Result A := x.1.1.
Definition world {A} (x : Result A * World * list Event) : World := x.1.2.
Definition trace {A} (x : Result A * World * list Event) : list Event := x.2.

End Model.

Notation "x <- m ;; k" := (bind m (fun x => k))
  (at level 20, m at level 99, k at level 200, only parsing).
Notation "m ;;; k" := (bind m (fun _ => k))
  (at level 100, k at level 200, only parsing, right associativity).

(** The operations of the collaborators. *)
Class Host `{HT : HostTypes} := {
  (* Python *)
  truthy_obj : Obj -> bool;
  module_type_attr : string -> option (Val Obj);   (* class attributes of the module type *)
  py_call : Val Obj -> HostCall (Val Obj);         (* f() *)
  py_compile : Node -> string -> Result Code;      (* compile(module, filename, "exec") *)
  py_exec : Code -> Namespace -> HostCall unit;    (* exec(bytecode, ns.module.__dict__) *)
  ast_Module : list Node -> Node;                  (* ast.Module(body=..., type_ignores=[]) *)
  fix_missing_locations : Node -> Node;
  os_getenv : string -> string -> World -> string;
  print : string -> HostCall unit;
  to_py_str : Node -> HostCall string;             (* whichever definition the import selected *)
  (* basilisp.lang.runtime, basilisp.lang.util *)
  print_generated_python : HostCall bool;
  add_generated_python : string -> Namespace -> HostCall unit;
  genname : string -> World -> string * World;
  (* basilisp.lang.compiler.analyzer *)
  new_AnalyzerContext : string -> option CompilerOpts -> AnalyzerContext;
  analyze_form : AnalyzerContext -> ReaderForm -> HostCall LispAST;
  (* basilisp.lang.compiler.generator *)
  new_GeneratorContext : string -> option CompilerOpts -> GeneratorContext;
  gctx_filename : GeneratorContext -> string;
  gen_py_ast : GeneratorContext -> LispAST -> HostCall (GeneratedPyAST Node);
  py_module_preamble : Namespace -> HostCall (GeneratedPyAST Node);
  _statementize : Node -> Node;
  _expressionize : GeneratedPyAST Node -> string -> Node;
  (* basilisp.lang.compiler.optimizer *)
  new_PythonASTOptimizer : PythonASTOptimizer;
  optimizer_visit : PythonASTOptimizer -> Node -> Result Node;
}.

(** ** The driver *)

Section Driver.
Context `{H : Host}.

Definition _DEFAULT_FN : string := "__lisp_expr__".

(** [BytecodeCollector = Callable[[types.CodeType], None]]. *)
Definition BytecodeCollector := Code -> HostCall unit.

Record CompilerContext := mkCompilerContext {
  filename : string;
  analyzer_context : AnalyzerContext;
  generator_context : GeneratorContext;
  py_ast_optimizer : PythonASTOptimizer;
}.

(** [CompilerContext.__init__]. *)
Definition new_CompilerContext (filename : string) (opts : option CompilerOpts)
  : CompilerContext :=
  {| filename := filename;
     analyzer_context := new_AnalyzerContext filename opts;
     generator_context := new_GeneratorContext filename opts;
     py_ast_optimizer := new_PythonASTOptimizer |}.

(** *** The statements on [ns.module] *)

Definition truthy (v : Val Obj) : bool :=
  match v with
  | VNone => false
  | VBool b => b
  | VObj o => truthy_obj o
  end.

Definition BOOTSTRAPPED : string := "__basilisp_bootstrapped__".

(** [ns.module.<name>]: the module's [__dict__], then the attributes of
    its type. *)
Definition getattr_module (ns : Namespace) (name : string) : M (Val Obj) :=
  fun w =>
    match w_modules w ns !! name with
    | Some v => (Returns v, w, [])
    | None =>
        match module_type_attr name with
        | Some v => (Returns v, w, [])
        | None => (Raises (AttributeError name), w, [])
        end
    end.

(** [ns.module.__basilisp_bootstrapped__ = True]. *)
Definition set_bootstrapped (ns : Namespace) : M unit :=
  fun w =>
    (Returns tt,
     with_module ns (<[BOOTSTRAPPED := VBool true]> (w_modules w ns)) w,
     [EvSetBootstrapped ns]).

(** [del ns.module.__dict__[name]]. *)
Definition del_item (ns : Namespace) (name : string) : M unit :=
  fun w =>
    match w_modules w ns !! name with
    | Some _ =>
        (Returns tt, with_module ns (delete name (w_modules w ns)) w, [EvDel ns name])
    | None => (Raises (KeyError name), w, [EvDel ns name])
    end.

(** [getattr(ns.module, name)()]. *)
Definition invoke (ns : Namespace) (name : string) : M (Val Obj) :=
  fun w =>
    let '(r, w1, t1) := (f <- getattr_module ns name ;; quiet (py_call f)) w in
    (r, w1, EvInvoke ns name :: t1).

(** [compile(module, filename, "exec")]. *)
Definition compile (module : Node) (source_filename : string) : M Code :=
  fun w =>
    match py_compile module source_filename with
    | Returns bytecode => (Returns bytecode, w, [EvAssembled bytecode])
    | Raises e => (Raises e, w, [])
    end.

(** [if collect_bytecode: collect_bytecode(bytecode)]; an absent collector
    is [None]. *)
Definition collect (collect_bytecode : option BytecodeCollector) (bytecode : Code)
  : M unit :=
  match collect_bytecode with
  | Some cb => host (EvCollect bytecode) (cb bytecode)
  | None => ret tt
  end.

(** *** The functions of the module *)

Definition _emit_ast_string (ns : Namespace) (module : Node) : M unit :=
  fun w =>
    if negb (String.eqb (os_getenv "BASILISP_EMIT_GENERATED_PYTHON" "true" w) "true")
    then ret tt w
    else
      (to_stdout <- quiet print_generated_python ;;
       if to_stdout
       then (s <- quiet (to_py_str module) ;; quiet (print s))
       else (s <- quiet (to_py_str module) ;; quiet (add_generated_python s ns))) w.

Definition _incremental_compile_module
    (optimizer : PythonASTOptimizer) (py_ast : GeneratedPyAST Node)
    (ns : Namespace) (source_filename : string)
    (collect_bytecode : option BytecodeCollector) : M unit :=
  let module_body := map _statementize (dependencies py_ast ++ [node py_ast]) in
  let module := ast_Module module_body in
  module <- pure (optimizer_visit optimizer module) ;;
  let module := fix_missing_locations module in
  _emit_ast_string ns module ;;;
  bytecode <- compile module source_filename ;;
  collect collect_bytecode bytecode ;;;
  host (EvExec ns bytecode) (py_exec bytecode ns).

Definition _bootstrap_module
    (gctx : GeneratorContext) (optimizer : PythonASTOptimizer)
    (ns : Namespace) (collect_bytecode : option BytecodeCollector) : M unit :=
  preamble <- host (EvPreamble ns) (py_module_preamble ns) ;;
  _incremental_compile_module optimizer preamble ns (gctx_filename gctx)
    collect_bytecode ;;;
  set_bootstrapped ns.

Definition compile_and_exec_form
    (form : ReaderForm) (ctx : CompilerContext) (ns : Namespace)
    (wrapped_fn_name : string) (collect_bytecode : option BytecodeCollector)
  : M (Val Obj) :=
  match form with
  | None => ret VNone
  | Some _ =>
      bootstrapped <- getattr_module ns BOOTSTRAPPED ;;
      (if negb (truthy bootstrapped)
       then _bootstrap_module (generator_context ctx) (py_ast_optimizer ctx) ns None
       else ret tt) ;;;
      final_wrapped_name <-
        quiet (fun w => let '(s, w1) := genname wrapped_fn_name w in (Returns s, w1)) ;;
      lisp_ast <- host (EvAnalyze form) (analyze_form (analyzer_context ctx) form) ;;
      py_ast <- host (EvGenerate lisp_ast) (gen_py_ast (generator_context ctx) lisp_ast) ;;
      let form_ast :=
        map _statementize
          (dependencies py_ast ++
           [_expressionize (mkGeneratedPyAST (node py_ast) []) final_wrapped_name]) in
      let ast_module := ast_Module form_ast in
      ast_module <- pure (optimizer_visit (py_ast_optimizer ctx) ast_module) ;;
      let ast_module := fix_missing_locations ast_module in
      _emit_ast_string ns ast_module ;;;
      bytecode <- compile ast_module (filename ctx) ;;
      collect collect_bytecode bytecode ;;;
      host (EvExec ns bytecode) (py_exec bytecode ns) ;;;
      try_finally (invoke ns final_wrapped_name) (del_item ns final_wrapped_name)
  end.

(** The body of the loop of [compile_module]. *)
Definition compile_module_form
    (ctx : CompilerContext) (ns : Namespace)
    (collect_bytecode : option BytecodeCollector) (form : ReaderForm) : M unit :=
  lisp_ast <- host (EvAnalyze form) (analyze_form (analyzer_context ctx) form) ;;
  nodes <- host (EvGenerate lisp_ast) (gen_py_ast (generator_context ctx) lisp_ast) ;;
  _incremental_compile_module (py_ast_optimizer ctx) nodes ns (filename ctx)
    collect_bytecode.

(** [for x in xs: body(x)]. *)
Fixpoint for_each {A} (xs : list A) (body : A -> M unit) : M unit :=
  match xs with
  | [] => ret tt
  | x :: rest => body x ;;; for_each rest body
  end.

Definition compile_module
    (forms : list ReaderForm) (ctx : CompilerContext) (ns : Namespace)
    (collect_bytecode : option BytecodeCollector) : M unit :=
  _bootstrap_module (generator_context ctx) (py_ast_optimizer ctx) ns None ;;;
  for_each forms (compile_module_form ctx ns collect_bytecode).

Definition compile_bytecode
    (code : list Code) (gctx : GeneratorContext) (optimizer : PythonASTOptimizer)
    (ns : Namespace) : M unit :=
  _bootstrap_module gctx optimizer ns None ;;;
  for_each code (fun bytecode => host (EvExec ns bytecode) (py_exec bytecode ns)).

End Driver.

(** ** Reading a trace *)

Section Traces.
Context `{HT : HostTypes}.

(** The units handed to the collector, in order. *)
Definition collected (t : list Event) : list Code :=
  omap (fun ev => match ev with EvCollect c => Some c | _ => None end) t.

(** The units [compile] produced, in order. *)
Definition assembled (t : list Event) : list Code :=
  omap (fun ev => match ev with EvAssembled c => Some c | _ => None end) t.

(** The units executed, in order. *)
Definition executed (t : list Event) : list Code :=
  omap (fun ev => match ev with EvExec _ c => Some c | _ => None end) t.

(** The forms handed to the analyzer, in order. *)
Definition analyzed (t : list Event) : list ReaderForm :=
  omap (fun ev => match ev with EvAnalyze f => Some f | _ => None end) t.

(** The analyzer nodes handed to the generator, in order. *)
Definition generated (t : list Event) : list LispAST :=
  omap (fun ev => match ev with EvGenerate n => Some n | _ => None end) t.

(** The namespaces whose preamble was asked for, in order. *)
Definition preambles (t : list Event) : list Namespace :=
  omap (fun ev => match ev with EvPreamble ns => Some ns | _ => None end) t.

(** Every [exec] in [t] comes right after the collector was called on the
    very unit it executes. *)
Definition collect_precedes_exec (t : list Event) : Prop :=
  forall t1 ns c t2, t = t1 ++ EvExec ns c :: t2 -> exists t0, t1 = t0 ++ [EvCollect c].

(** Every analysis in [t] is the first call of [t] or comes right after
    an [exec] that returned. *)
Definition analyze_follows_exec (t : list Event) : Prop :=
  forall t1 f t2, t = t1 ++ EvAnalyze f :: t2 ->
    t1 = [] \/ exists t0 ns c, t1 = t0 ++ [EvExec ns c].

End Traces.

(** ** Specifications of runs *)

Section Specifications.
Context `{H : Host}.

(** [wp m w Q]: the run of [m] from [w] ends in an outcome, a state and a
    trace that satisfy [Q]. *)
Definition wp {A} (m : M A) (w : World) (Q : Result A -> World -> list Event -> Prop) : Prop :=
  Q (outcome (m w)) (world (m w)) (trace (m w)).

(** What [collect] adds to the trace. *)
Definition collect_events (cbo : option BytecodeCollector) (c : Code) : list Event :=
  match cbo with Some _ => [EvCollect c] | None => [] end.

(** The wrappers called, in order. *)
Definition invoked (t : list Event) : list (Namespace * string) :=
  omap (fun ev => match ev with EvInvoke ns name => Some (ns, name) | _ => None end) t.

(** The outcome is an exception. *)
Definition raised {A} (r : Result A) : Prop := exists e, r = Raises e.

(** The calls made by one [_incremental_compile_module]. *)
Definition icm_shape (cbo : option BytecodeCollector) (ns : Namespace)
    (r : Result unit) (t : list Event) : Prop :=
  (t = [] /\ raised r)
  \/ (exists c, t = EvAssembled c :: collect_events cbo c ++ [EvExec ns c])
  \/ (exists c, is_Some cbo /\ t = [EvAssembled c; EvCollect c] /\ raised r).

(** The calls made by one [_bootstrap_module]. *)
Definition bootstrap_shape (cbo : option BytecodeCollector) (ns : Namespace)
    (r : Result unit) (t : list Event) : Prop :=
  (t = [EvPreamble ns] /\ raised r)
  \/ (exists ti, t = EvPreamble ns :: ti /\ raised r /\ icm_shape cbo ns r ti)
  \/ (exists c, r = Returns tt /\
        t = EvPreamble ns :: EvAssembled c :: collect_events cbo c
              ++ [EvExec ns c; EvSetBootstrapped ns]).

(** The calls made for one form, up to the execution of its unit. *)
Definition form_unit_shape (cbo : option BytecodeCollector) (ns : Namespace)
    (form : ReaderForm) (r : Result unit) (t : list Event) : Prop :=
  (t = [EvAnalyze form] /\ raised r)
  \/ (exists lisp_ast ti, t = EvAnalyze form :: EvGenerate lisp_ast :: ti
                          /\ icm_shape cbo ns r ti).

(** The calls made by the loop of [compile_module] over [forms]. *)
Fixpoint loop_shape (cbo : option BytecodeCollector) (ns : Namespace)
    (forms : list ReaderForm) (r : Result unit) (t : list Event) : Prop :=
  match forms with
  | [] => t = [] /\ r = Returns tt
  | form :: rest =>
      exists ru tu, form_unit_shape cbo ns form ru tu
        /\ ((raised ru /\ r = ru /\ t = tu)
            \/ (ru = Returns tt /\ exists t', t = tu ++ t' /\ loop_shape cbo ns rest r t'))
  end.

(** The calls made by [compile_and_exec_form] on a form that is not [None]:
    the guarded bootstrap [tb], the unit of the form [tu], the wrapper [tw]. *)
Definition form_driver_shape (ctx : CompilerContext) (ns : Namespace)
    (cbo : option BytecodeCollector) (form : ReaderForm) (w : World)
    (r : Result (Val Obj)) (t : list Event) : Prop :=
  (t = [] /\ raised r)
  \/ (exists v tb tu tw,
        t = tb ++ tu ++ tw
        /\ outcome (getattr_module ns BOOTSTRAPPED w) = Returns v
        /\ ((truthy v = true /\ tb = [])
            \/ (truthy v = false
                /\ tb = trace (_bootstrap_module (generator_context ctx)
                                 (py_ast_optimizer ctx) ns None w)))
        /\ collected tb = [] /\ analyzed tb = [] /\ invoked tb = []
        /\ ((tu = [] /\ tw = [] /\ raised r)
            \/ (exists ru, form_unit_shape cbo ns form ru tu
                  /\ ((raised ru /\ raised r /\ tw = [])
                      \/ (ru = Returns tt
                          /\ exists name, tw = [EvInvoke ns name; EvDel ns name]))))).

(** A host call that leaves the [__dict__] of the module of [ns] as it was. *)
Definition preserves_module (ns : Namespace) {A} (c : HostCall A) : Prop :=
  forall w, w_modules (c w).2 ns = w_modules w ns.

(** A host call whose outcome, and whose effect on the [__dict__] of the
    module of [ns], depend on that [__dict__] only. *)
Definition module_determined (ns : Namespace) {A} (c : HostCall A) : Prop :=
  forall w w', w_modules w ns = w_modules w' ns ->
    (c w).1 = (c w').1 /\ w_modules (c w).2 ns = w_modules (c w').2 ns.

(** The same, for a run of driver code. *)
Definition run_determined (ns : Namespace) {A} (m : M A) : Prop :=
  forall w w', w_modules w ns = w_modules w' ns ->
    outcome (m w) = outcome (m w')
    /\ w_modules (world (m w)) ns = w_modules (world (m w')) ns.

(** What replaying cached bytecode relies on: only [exec] changes the
    module, analysis, generation, the collector and the emission of the
    generated source do not; and the preamble and the effect of a unit
    depend on the module they run in and on nothing else. *)
Record ReplayFrame (ctx : CompilerContext) (ns : Namespace) (cb : BytecodeCollector)
  : Prop := {
  rf_analyze : forall form,
    preserves_module ns (analyze_form (analyzer_context ctx) form);
  rf_generate : forall lisp_ast,
    preserves_module ns (gen_py_ast (generator_context ctx) lisp_ast);
  rf_collect : forall bytecode, preserves_module ns (cb bytecode);
  rf_emit : forall module w,
    outcome (_emit_ast_string ns module w) = Returns tt
    /\ w_modules (world (_emit_ast_string ns module w)) ns = w_modules w ns;
  rf_preamble : module_determined ns (py_module_preamble ns);
  rf_exec : forall bytecode, module_determined ns (py_exec bytecode ns);
}.

End Specifications.

(** ** A small host

    A host with three kinds of statement, enough to run the drivers on
    concrete modules: constants, global names and [raise] as expressions;
    expression statements, assignments and function definitions as
    statements. *)

Module Toy.

Inductive Const := CNone | CBool (b : bool) | CNum (n : nat).

Inductive Expr :=
| EConst (c : Const)
| EName (name : string)
| ERaise (msg : string).

#[warnings="-register-all"] Inductive ToyNode :=
| NExpr (e : Expr)                       (* an expression *)
| NStmtExpr (e : Expr)                   (* ast.Expr(value=e) *)
| NAssign (name : string) (e : Expr)     (* name = e *)
| NDef (name : string) (e : Expr)        (* def name(): return e *)
| NModule (body : list ToyNode).

Inductive ToyObj :=
| ONum (n : nat)
| OFn (ns : nat) (e : Expr).             (* a function and the module of its globals *)

Inductive ToyForm :=
| FNum (n : nat)                         (* 42 *)
| FSym (name : string)                   (* x *)
| FDef (name : string) (n : nat)         (* (def x 42) *)
| FDoNil                                 (* (do nil) *)
| FThrow (msg : string)                  (* (throw ...) *)
| FBad.                                  (* a form the analyzer rejects *)

Record ToyExt := mkToyExt {
  next_id : nat;                         (* the counter of genname *)
  emit : bool;                           (* BASILISP_EMIT_GENERATED_PYTHON is "true" *)
  to_stdout : bool;                      (* runtime.print_generated_python() *)
  stdout : list string;
  generated_python : list string;
}.

#[global] Instance toy_types : HostTypes := {|
  Namespace := nat;
  Obj := ToyObj;
  HostExn := string;
  Form := ToyForm;
  LispAST := option ToyForm;
  Node := ToyNode;
  Code := list ToyNode;
  AnalyzerContext := string;
  GeneratorContext := string;
  PythonASTOptimizer := unit;
  Ext := ToyExt;
|}.

Definition const_val (c : Const) : Val ToyObj :=
  match c with
  | CNone => VNone
  | CBool b => VBool b
  | CNum n => VObj (ONum n)
  end.

Definition eval (e : Expr) (d : gmap string (Val ToyObj)) : Result (Val ToyObj) :=
  match e with
  | EConst c => Returns (const_val c)
  | EName name =>
      match d !! name with
      | Some v => Returns v
      | None => Raises (HostError ("NameError: " +:+ name))
      end
  | ERaise msg => Raises (HostError msg)
  end.

Definition exec_stmt (ns : nat) (s : ToyNode) (d : gmap string (Val ToyObj))
  : Result (gmap string (Val ToyObj)) :=
  match s with
  | NStmtExpr e =>
      match eval e d with Returns _ => Returns d | Raises x => Raises x end
  | NAssign name e =>
      match eval e d with Returns v => Returns (<[name := v]> d) | Raises x => Raises x end
  | NDef name e => Returns (<[name := VObj (OFn ns e)]> d)
  | _ => Raises (HostError "TypeError: expected a statement")
  end.

(** Statements run in order; the bindings made before a failure stay. *)
Fixpoint exec_body (ns : nat) (body : list ToyNode) (d : gmap string (Val ToyObj))
  : Result unit * gmap string (Val ToyObj) :=
  match body with
  | [] => (Returns tt, d)
  | s :: rest =>
      match exec_stmt ns s d with
      | Returns d1 => exec_body ns rest d1
      | Raises x => (Raises x, d)
      end
  end.

Definition toy_exec (c : list ToyNode) (ns : nat) : HostCall unit :=
  fun w => let '(r, d) := exec_body ns c (w_modules w ns) in (r, with_module ns d w).

Definition toy_call (f : Val ToyObj) : HostCall (Val ToyObj) :=
  fun w =>
    match f with
    | VObj (OFn ns e) => (eval e (w_modules w ns), w)
    | _ => (Raises (HostError "TypeError: object is not callable"), w)
    end.

Definition toy_compile (module : ToyNode) (source_filename : string)
  : Result (list ToyNode) :=
  match module with
  | NModule body => Returns body
  | _ => Raises (HostError "TypeError: expected a module")
  end.

Definition toy_statementize (n : ToyNode) : ToyNode :=
  match n with
  | NExpr e => NStmtExpr e
  | _ => n
  end.

Definition toy_expressionize (g : GeneratedPyAST ToyNode) (fn_name : string) : ToyNode :=
  match node g with
  | NExpr e => NDef fn_name e
  | _ => NDef fn_name (EConst CNone)
  end.

Definition toy_analyze (actx : string) (form : option ToyForm) : HostCall (option ToyForm) :=
  fun w =>
    match form with
    | Some FBad => (Raises (HostError "CompilerException: analyzing"), w)
    | _ => (Returns form, w)
    end.

Definition toy_gen (gctx : string) (lisp_ast : option ToyForm)
  : HostCall (GeneratedPyAST ToyNode) :=
  fun w =>
    (Returns
       match lisp_ast with
       | None => mkGeneratedPyAST (NExpr (EConst CNone)) []
       | Some (FNum n) => mkGeneratedPyAST (NExpr (EConst (CNum n))) []
       | Some (FSym name) => mkGeneratedPyAST (NExpr (EName name)) []
       | Some (FDef name n) =>
           mkGeneratedPyAST (NExpr (EName name)) [NAssign name (EConst (CNum n))]
       | Some FDoNil => mkGeneratedPyAST (NExpr (EConst CNone)) []
       | Some (FThrow msg) => mkGeneratedPyAST (NExpr (ERaise msg)) []
       | Some FBad => mkGeneratedPyAST (NExpr (EConst CNone)) []
       end, w).

(** The preamble binds the namespace in the module and needs the
    interpreter's [__builtins__] to be there. *)
Definition toy_preamble (ns : nat) : HostCall (GeneratedPyAST ToyNode) :=
  fun w =>
    (Returns
       (mkGeneratedPyAST (NExpr (EConst CNone))
          [NAssign "__NS" (EConst (CNum ns)); NStmtExpr (EName "__builtins__")]), w).

Definition toy_genname (prefix : string) (w : World) : string * World :=
  (prefix +:+ "_" +:+ pretty (next_id (w_ext w)),
   {| w_modules := w_modules w;
      w_ext := {| next_id := S (next_id (w_ext w));
                  emit := emit (w_ext w);
                  to_stdout := to_stdout (w_ext w);
                  stdout := stdout (w_ext w);
                  generated_python := generated_python (w_ext w) |} |}).

Definition toy_print (s : string) : HostCall unit :=
  fun w =>
    (Returns tt,
     {| w_modules := w_modules w;
        w_ext := {| next_id := next_id (w_ext w);
                    emit := emit (w_ext w);
                    to_stdout := to_stdout (w_ext w);
                    stdout := stdout (w_ext w) ++ [s];
                    generated_python := generated_python (w_ext w) |} |}).

Definition toy_add_generated_python (s : string) (ns : nat) : HostCall unit :=
  fun w =>
    (Returns tt,
     {| w_modules := w_modules w;
        w_ext := {| next_id := next_id (w_ext w);
                    emit := emit (w_ext w);
                    to_stdout := to_stdout (w_ext w);
                    stdout := stdout (w_ext w);
                    generated_python := generated_python (w_ext w) ++ [s] |} |}).

#[global] Instance toy_host : Host := {|
  truthy_obj := fun o => match o with ONum 0 => false | _ => true end;
  module_type_attr := fun name =>
    if String.eqb name "__basilisp_bootstrapped__" then Some (VBool false) else None;
  py_call := toy_call;
  py_compile := toy_compile;
  py_exec := toy_exec;
  ast_Module := NModule;
  fix_missing_locations := fun n => n;
  os_getenv := fun name default w => if emit (w_ext w) then "true" else "false";
  print := toy_print;
  to_py_str := fun n w => (Returns "<generated>", w);
  print_generated_python := fun w => (Returns (to_stdout (w_ext w)), w);
  add_generated_python := toy_add_generated_python;
  genname := toy_genname;
  new_AnalyzerContext := fun filename opts => filename;
  analyze_form := toy_analyze;
  new_GeneratorContext := fun filename opts => filename;
  gctx_filename := fun gctx => gctx;
  gen_py_ast := toy_gen;
  py_module_preamble := toy_preamble;
  _statementize := toy_statementize;
  _expressionize := toy_expressionize;
  new_PythonASTOptimizer := tt;
  optimizer_visit := fun opt n => Returns n;
|}.

(** A collector that keeps nothing: what it was given is read off the trace. *)
Definition keep_nothing : BytecodeCollector := fun c w => (Returns tt, w).

(** A collector that cannot store what it is given. *)
Definition failing_collector : BytecodeCollector :=
  fun c w => (Raises (HostError "cache is read-only"), w).

Definition toy_ctx : CompilerContext := new_CompilerContext "<toy>" None.

Definition toy_gctx : GeneratorContext := generator_context toy_ctx.

Definition toy_optimizer : PythonASTOptimizer := py_ast_optimizer toy_ctx.

Definition builtins : gmap string (Val ToyObj) := {[ "__builtins__" := VObj (ONum 1) ]}.

Definition quiet_ext : ToyExt :=
  {| next_id := 7; emit := false; to_stdout := false; stdout := [];
     generated_python := [] |}.

(** A process whose modules hold the builtins and nothing else. *)
Definition fresh : World := {| w_modules := fun _ => builtins; w_ext := quiet_ext |}.

(** A process whose modules are empty: the preamble cannot run there. *)
Definition bare : World := {| w_modules := fun _ => ∅; w_ext := quiet_ext |}.

Definition verbose_ext : ToyExt :=
  {| next_id := 0; emit := true; to_stdout := true; stdout := [];
     generated_python := [] |}.

(** Another process: the same modules, another counter, and the generated
    source printed. *)
Definition other_process : World :=
  {| w_modules := fun _ => builtins; w_ext := verbose_ext |}.

End Toy.

(** * Theorems *)

(** ** Compiler options *)

(** C4: for every option whose default is true, passing an explicit [False]
    gives the same options as passing nothing for it, and in both the option
    is true: under [x or True] an explicit false and an absent argument
    cannot be told apart. *)
Theorem explicit_false_same_as_absent (kw : Overrides) (k : OptName) :
  compiler_opts_kw no_overrides !! k = Some true ->
  compiler_opts_kw (<[k := Some false]> kw) = compiler_opts_kw (<[k := None]> kw)
  /\ compiler_opts_kw (<[k := Some false]> kw) !! k = Some true
  /\ compiler_opts_kw (<[k := None]> kw) !! k = Some true.
Proof.
  intros Hk. destruct k; try discriminate Hk; repeat split; reflexivity.
Qed.

Lemma explicit_false_same_as_absent_witness :
  compiler_opts_kw (<[INLINE_FUNCTIONS := Some false]> no_overrides)
    = compiler_opts_kw (<[INLINE_FUNCTIONS := None]> no_overrides)
  /\ compiler_opts_kw (<[INLINE_FUNCTIONS := Some false]> no_overrides)
       !! INLINE_FUNCTIONS = Some true
  /\ compiler_opts_kw (<[INLINE_FUNCTIONS := None]> no_overrides)
       !! INLINE_FUNCTIONS = Some true.
Proof.
  apply (explicit_false_same_as_absent no_overrides INLINE_FUNCTIONS). reflexivity.
Defined.

(** C8: with no override every option has its documented default, and an
    override for one option leaves the value of every other option as it
    was. *)
Theorem defaults_and_independence :
  (forall k, compiler_opts_kw no_overrides !! k = Some (documented_default k))
  /\ (forall (kw : Overrides) k v k', k <> k' ->
        compiler_opts_kw (<[k := v]> kw) !! k' = compiler_opts_kw kw !! k').
Proof.
  split.
  - intros k. destruct k; reflexivity.
  - intros kw k v k' Hne. destruct k, k'; try congruence; reflexivity.
Qed.

Lemma defaults_and_independence_witness :
  compiler_opts_kw (<[WARN_ON_SHADOWED_VAR := Some true]> no_overrides)
    !! USE_VAR_INDIRECTION
  = compiler_opts_kw no_overrides !! USE_VAR_INDIRECTION.
Proof.
  apply (proj2 defaults_and_independence no_overrides
           WARN_ON_SHADOWED_VAR (Some true) USE_VAR_INDIRECTION).
  discriminate.
Defined.

(** ** Runs *)

Section Runs.
Context `{H : Host}.

Lemma run_eta {A} (x : Result A * World * list Event) :
  x = (outcome x, world x, trace x).
Proof. by destruct x as [[r w] t]. Qed.

Lemma bind_returns {A B} (m : M A) (k : A -> M B) w a w1 t1 :
  m w = (Returns a, w1, t1) ->
  bind m k w = (outcome (k a w1), world (k a w1), t1 ++ trace (k a w1)).
Proof. intros E. unfold bind. rewrite E. by destruct (k a w1) as [[r2 w2] t2]. Qed.

Lemma bind_raises {A B} (m : M A) (k : A -> M B) w e w1 t1 :
  m w = (Raises e, w1, t1) -> bind m k w = (Raises e, w1, t1).
Proof. intros E. unfold bind. by rewrite E. Qed.

Lemma wp_bind {A B} (m : M A) (k : A -> M B) w Q :
  wp m w (fun r w1 t1 =>
            match r with
            | Returns a => wp (k a) w1 (fun r2 w2 t2 => Q r2 w2 (t1 ++ t2))
            | Raises e => Q (Raises e) w1 t1
            end) ->
  wp (bind m k) w Q.
Proof.
  unfold wp. destruct (m w) as [[[a|e] w1] t1] eqn:E; simpl.
  - by rewrite (bind_returns _ _ _ _ _ _ E).
  - by rewrite (bind_raises _ _ _ _ _ _ E).
Qed.

Lemma wp_mono {A} (m : M A) w (Q Q' : Result A -> World -> list Event -> Prop) :
  wp m w Q -> (forall r w1 t, Q r w1 t -> Q' r w1 t) -> wp m w Q'.
Proof. unfold wp. auto. Qed.

Lemma wp_ret {A} (a : A) w Q : Q (Returns a) w [] -> wp (ret a) w Q.
Proof. done. Qed.

Lemma wp_pure {A} (r : Result A) w Q : Q r w [] -> wp (pure r) w Q.
Proof. done. Qed.

Lemma wp_host {A} ev (c : HostCall A) w Q :
  (forall r w1, c w = (r, w1) -> Q r w1 [ev]) -> wp (host ev c) w Q.
Proof. intros HQ. unfold wp, host. destruct (c w) as [r w1] eqn:E. by apply HQ. Qed.

Lemma wp_quiet {A} (c : HostCall A) w Q :
  (forall r w1, c w = (r, w1) -> Q r w1 []) -> wp (quiet c) w Q.
Proof. intros HQ. unfold wp, quiet. destruct (c w) as [r w1] eqn:E. by apply HQ. Qed.

Lemma wp_try_finally {A} (body : M A) (fin : M unit) w Q :
  wp body w (fun r w1 t1 =>
    wp fin w1 (fun rf w2 t2 =>
      Q (match rf with Returns _ => r | Raises e => Raises e end) w2 (t1 ++ t2))) ->
  wp (try_finally body fin) w Q.
Proof.
  unfold wp, try_finally, outcome, world, trace.
  destruct (body w) as [[r w1] t1]; simpl.
  destruct (fin w1) as [[rf w2] t2]; simpl. auto.
Qed.

Lemma lookup_with_module ns d w : w_modules (with_module ns d w) ns = d.
Proof. unfold with_module; simpl. apply fn_lookup_insert. Qed.

Lemma wp_getattr_module ns name w Q :
  (forall v, w_modules w ns !! name = Some v
             \/ (w_modules w ns !! name = None /\ module_type_attr name = Some v) ->
             Q (Returns v) w []) ->
  (w_modules w ns !! name = None -> module_type_attr name = None ->
   Q (Raises (AttributeError name)) w []) ->
  wp (getattr_module ns name) w Q.
Proof.
  intros Hv He. unfold wp, getattr_module.
  destruct (w_modules w ns !! name) as [v|] eqn:E; [apply Hv; auto|].
  destruct (module_type_attr name) as [v|] eqn:E'; [apply Hv; auto|].
  by apply He.
Qed.

Lemma wp_del_item ns name w Q :
  (forall w1, w_modules w1 ns !! name = None -> Q (Returns tt) w1 [EvDel ns name]) ->
  (w_modules w ns !! name = None -> Q (Raises (KeyError name)) w [EvDel ns name]) ->
  wp (del_item ns name) w Q.
Proof.
  intros Hd He. unfold wp, del_item, outcome, world, trace.
  destruct (w_modules w ns !! name) as [v|] eqn:E; simpl.
  - apply Hd. rewrite lookup_with_module. apply lookup_delete_eq.
  - by apply He.
Qed.

Lemma wp_invoke ns name w Q :
  (forall r w1, Q r w1 [EvInvoke ns name]) -> wp (invoke ns name) w Q.
Proof.
  intros HQ.
  assert (wp (f <- getattr_module ns name ;; quiet (py_call f)) w (fun _ _ t => t = []))
    as Hquiet.
  { apply wp_bind, wp_getattr_module; [|done].
    intros v _. by apply wp_quiet. }
  revert Hquiet. unfold wp, invoke, outcome, world, trace.
  destruct (bind _ _ w) as [[r w1] t1]; simpl. intros ->. apply HQ.
Qed.

Lemma wp_emit ns module w Q :
  (forall r w1, Q r w1 []) -> wp (_emit_ast_string ns module) w Q.
Proof.
  intros HQ. unfold wp.
  assert (trace (_emit_ast_string ns module w) = []) as ->; [|apply HQ].
  unfold _emit_ast_string, bind, quiet, ret, trace.
  repeat (case_match; simplify_eq/=); done.
Qed.

Lemma wp_compile module fn w Q :
  (forall c, py_compile module fn = Returns c -> Q (Returns c) w [EvAssembled c]) ->
  (forall e, py_compile module fn = Raises e -> Q (Raises e) w []) ->
  wp (compile module fn) w Q.
Proof.
  intros Hc He. unfold wp, compile.
  destruct (py_compile module fn) as [c|e] eqn:E; [by apply Hc | by apply He].
Qed.

Lemma wp_collect cbo c w Q :
  (forall cb r w1, cbo = Some cb -> cb c w = (r, w1) -> Q r w1 [EvCollect c]) ->
  (cbo = None -> Q (Returns tt) w []) ->
  wp (collect cbo c) w Q.
Proof.
  intros HQ Hn. destruct cbo as [cb|]; simpl.
  - apply wp_host. intros r w1 E. by apply (HQ cb).
  - by apply Hn.
Qed.

End Runs.

(** ** The loader and the bootstrap step *)

Section Blocks.
Context `{H : Host}.

Lemma icm_spec optimizer py_ast ns fn cbo w :
  wp (_incremental_compile_module optimizer py_ast ns fn cbo) w
     (fun r _ t => icm_shape cbo ns r t).
Proof.
  unfold _incremental_compile_module, icm_shape, raised.
  apply wp_bind, wp_pure. destruct (optimizer_visit _ _) as [module|e]; [|eauto].
  apply wp_bind, wp_emit. intros [[]|e] w1; [|eauto].
  apply wp_bind, wp_compile; [|eauto]. intros c _.
  apply wp_bind, wp_collect.
  - intros cb [[]|e] w2 -> _.
    + apply wp_host. intros r w3 _. right; left. by exists c.
    + right; right. exists c. eauto.
  - intros ->. apply wp_host. intros r w3 _. right; left. by exists c.
Qed.

Lemma bootstrap_spec gctx optimizer ns cbo w :
  wp (_bootstrap_module gctx optimizer ns cbo) w
     (fun r w1 t => bootstrap_shape cbo ns r t
        /\ (r = Returns tt -> w_modules w1 ns !! BOOTSTRAPPED = Some (VBool true))).
Proof.
  unfold _bootstrap_module, bootstrap_shape, raised.
  apply wp_bind, wp_host. intros [preamble|e] w1 _; [|split; [eauto|done]].
  apply wp_bind. eapply wp_mono; [apply icm_spec|]. simpl.
  intros [[]|e] w2 ti Hti.
  - unfold wp, set_bootstrapped, outcome, world, trace; simpl. split.
    + right; right. destruct Hti as [[_ [e ?]]|[[c ->]|(c & _ & _ & [e ?])]]; try done.
      exists c. split; [done|]. simpl. by rewrite <-app_assoc.
    + intros _. rewrite fn_lookup_insert. apply lookup_insert_eq.
  - split; [|done]. right; left. exists ti. eauto.
Qed.

Lemma collected_app (t1 t2 : list Event) : collected (t1 ++ t2) = collected t1 ++ collected t2.
Proof. apply omap_app. Qed.
Lemma assembled_app (t1 t2 : list Event) : assembled (t1 ++ t2) = assembled t1 ++ assembled t2.
Proof. apply omap_app. Qed.
Lemma executed_app (t1 t2 : list Event) : executed (t1 ++ t2) = executed t1 ++ executed t2.
Proof. apply omap_app. Qed.
Lemma analyzed_app (t1 t2 : list Event) : analyzed (t1 ++ t2) = analyzed t1 ++ analyzed t2.
Proof. apply omap_app. Qed.
Lemma generated_app (t1 t2 : list Event) : generated (t1 ++ t2) = generated t1 ++ generated t2.
Proof. apply omap_app. Qed.
Lemma preambles_app (t1 t2 : list Event) : preambles (t1 ++ t2) = preambles t1 ++ preambles t2.
Proof. apply omap_app. Qed.

Lemma invoked_app (t1 t2 : list Event) : invoked (t1 ++ t2) = invoked t1 ++ invoked t2.
Proof. apply omap_app. Qed.

Lemma icm_shape_facts cbo ns r t :
  icm_shape cbo ns r t ->
  preambles t = [] /\ analyzed t = [] /\ generated t = [] /\ invoked t = []
  /\ (cbo = None -> collected t = []).
Proof.
  intros [[-> _]|[[c ->]|(c & [cb ->] & -> & _)]]; [done| |done].
  destruct cbo; repeat split; done.
Qed.

Lemma bootstrap_shape_facts cbo ns r t :
  bootstrap_shape cbo ns r t ->
  preambles t = [ns] /\ analyzed t = [] /\ generated t = [] /\ invoked t = []
  /\ (cbo = None -> collected t = []).
Proof.
  intros [[-> _]|[(ti & -> & _ & Hti)|(c & _ & ->)]]; [done| |].
  - destruct Hti as [[-> _]|[[c ->]|(c & [cb ->] & -> & _)]]; [done| |done].
    destruct cbo; repeat split; done.
  - destruct cbo; repeat split; done.
Qed.

End Blocks.

(** ** The wrapper of [compile_and_exec_form] *)

Section FormDriver.
Context `{H : Host}.

Lemma elem_of_invoked ns name (t : list Event) :
  EvInvoke ns name ∈ t <-> (ns, name) ∈ invoked t.
Proof.
  unfold invoked. rewrite list_elem_of_omap. split.
  - intros Hin. exists (EvInvoke ns name). by split.
  - intros (ev & Hin & Hev). destruct ev; by simplify_eq.
Qed.

(** What the guard at the head of [compile_and_exec_form] leaves behind:
    nothing, or the calls of one bootstrap. *)
Lemma guard_spec gctx optimizer ns (v : Val Obj) w :
  let x := (if negb (truthy v) then _bootstrap_module gctx optimizer ns None else ret tt) w in
  (truthy v = true /\ x = (Returns tt, w, []))
  \/ (truthy v = false /\ bootstrap_shape None ns (outcome x) (trace x)
      /\ x = _bootstrap_module gctx optimizer ns None w).
Proof.
  destruct (truthy v); simpl; [by left|right].
  split; [done|]. split; [|done]. apply (bootstrap_spec gctx optimizer ns None w).
Qed.

Lemma guard_facts gctx optimizer ns (v : Val Obj) w :
  wp (if negb (truthy v) then _bootstrap_module gctx optimizer ns None else ret tt) w
     (fun _ _ t => analyzed t = [] /\ generated t = [] /\ invoked t = [] /\ collected t = []).
Proof.
  unfold wp. destruct (guard_spec gctx optimizer ns v w) as [[_ ->]|(_ & Hs & _)]; [done|].
  apply bootstrap_shape_facts in Hs as (_ & ? & ? & ? & ?). auto.
Qed.

(** C5: whenever [compile_and_exec_form] gets as far as invoking the
    wrapper it bound under the generated name, then on return, with a value
    or with the exception the invocation raised, the module has no binding
    under that name, and the [del] of the [finally] clause has run. *)
Theorem wrapper_binding_removed form ctx ns base cbo w name :
  EvInvoke ns name ∈ trace (compile_and_exec_form form ctx ns base cbo w) ->
  w_modules (world (compile_and_exec_form form ctx ns base cbo w)) ns !! name = None
  /\ EvDel ns name ∈ trace (compile_and_exec_form form ctx ns base cbo w).
Proof.
  change (wp (compile_and_exec_form form ctx ns base cbo) w (fun _ w1 t =>
            EvInvoke ns name ∈ t -> w_modules w1 ns !! name = None /\ EvDel ns name ∈ t)).
  assert (forall t : list Event, invoked t = [] -> ~ EvInvoke ns name ∈ t) as Hno.
  { intros t Ht. rewrite elem_of_invoked, Ht. apply not_elem_of_nil. }
  assert (forall (t1 t2 : list Event), invoked t1 = [] -> invoked t2 = [] ->
            ~ EvInvoke ns name ∈ t1 ++ t2) as Hno2.
  { intros t1 t2 Ht1 Ht2. apply Hno. by rewrite invoked_app, Ht1, Ht2. }
  destruct form as [f|]; simpl; [|by intros ?%Hno].
  apply wp_bind, wp_getattr_module; [|by intros _ _ ?%Hno].
  intros v _. apply wp_bind. eapply wp_mono; [apply guard_facts|]. simpl.
  intros [[]|e] w1 tb (_ & _ & Hb & _); [|by intros ?%Hno].
  apply wp_bind, wp_quiet. intros r w2. destruct (genname base w1) as [n w2'].
  intros [= <- <-].
  apply wp_bind, wp_host. intros [lisp_ast|e] w3 _; [|by intros ?%Hno2].
  apply wp_bind, wp_host. intros [py_ast|e] w4 _; [|by intros ?%Hno2].
  apply wp_bind, wp_pure.
  destruct (optimizer_visit _ _) as [ast_module|e]; [|by intros ?%Hno2].
  apply wp_bind, wp_emit. intros [[]|e] w5; [|by intros ?%Hno2].
  apply wp_bind, wp_compile; [|by intros e _ ?%Hno2]. intros bytecode _.
  assert (forall (t0 : list Event) w6, invoked t0 = [] ->
    wp (host (EvExec ns bytecode) (py_exec bytecode ns) ;;;
        try_finally (invoke ns n) (del_item ns n)) w6
       (fun _ w1 t => EvInvoke ns name ∈ t0 ++ t ->
          w_modules w1 ns !! name = None /\ EvDel ns name ∈ t0 ++ t)) as Htail.
  { intros t0 w6 Ht0.
    apply wp_bind, wp_host. intros [[]|e] w7 _; [|by intros ?%Hno2].
    apply wp_try_finally, wp_invoke. intros r w8.
    assert (forall t', EvInvoke ns name ∈ t0 ++ [EvExec ns bytecode] ++ [EvInvoke ns n] ++ t' ->
              invoked t' = [] -> name = n) as Hname.
    { intros t' Hin Ht'. apply elem_of_invoked in Hin.
      rewrite !invoked_app, Ht0, Ht' in Hin. simpl in Hin.
      apply list_elem_of_singleton in Hin. congruence. }
    apply wp_del_item.
    - intros w9 Hgone Hin. apply Hname in Hin as ->; [|done]. split; [done|].
      rewrite !elem_of_app, !list_elem_of_singleton. auto.
    - intros Hgone Hin. apply Hname in Hin as ->; [|done]. split; [done|].
      rewrite !elem_of_app, !list_elem_of_singleton. auto. }
  apply wp_bind, wp_collect.
  - intros cb [[]|e] w6 _ _; [|by intros ?%Hno2].
    eapply wp_mono; [apply (Htail (tb ++ [EvAnalyze (Some f)] ++ [EvGenerate lisp_ast]
                                     ++ [EvAssembled bytecode] ++ [EvCollect bytecode]))|].
    + by rewrite invoked_app, Hb.
    + simpl. intros _ w7 t. by rewrite <-!app_assoc.
  - intros _.
    eapply wp_mono; [apply (Htail (tb ++ [EvAnalyze (Some f)] ++ [EvGenerate lisp_ast]
                                     ++ [EvAssembled bytecode]))|].
    + by rewrite invoked_app, Hb.
    + simpl. intros _ w7 t. by rewrite <-!app_assoc.
Qed.
End FormDriver.

(** ** Traces of the drivers *)

Section Shapes.
Context `{H : Host}.

Lemma app_eq_split {A} (ta tb t1 t2 : list A) x :
  ta ++ tb = t1 ++ x :: t2 ->
  (exists l, ta = t1 ++ x :: l /\ t2 = l ++ tb)
  \/ (exists l, t1 = ta ++ l /\ tb = l ++ x :: t2).
Proof.
  revert t1. induction ta as [|a ta IH]; intros t1 E; simpl in *.
  - right. by exists t1.
  - destruct t1 as [|b t1]; injection E as -> E.
    + left. by exists ta.
    + destruct (IH _ E) as [(l & -> & ->)|(l & -> & ->)]; [left|right]; by exists l.
Qed.

Lemma collect_precedes_exec_app (t1 t2 : list Event) :
  collect_precedes_exec t1 -> collect_precedes_exec t2 ->
  collect_precedes_exec (t1 ++ t2).
Proof.
  intros H1 H2 s1 ns c s2 E.
  apply app_eq_split in E as [(l & E & _)|(l & -> & E)].
  - by apply H1 in E.
  - apply H2 in E as [t0 ->]. exists (t1 ++ t0). by rewrite app_assoc.
Qed.

Lemma analyze_follows_exec_app (t1 t2 : list Event) :
  analyze_follows_exec t1 -> analyze_follows_exec t2 ->
  (t2 = [] \/ exists t0 ns c, t1 = t0 ++ [EvExec ns c]) ->
  analyze_follows_exec (t1 ++ t2).
Proof.
  intros H1 H2 Hend s1 f s2 E.
  apply app_eq_split in E as [(l & E & _)|(l & -> & E)].
  - by apply H1 in E.
  - destruct Hend as [->|(t0 & ns & c & ->)]; [by destruct l|].
    apply H2 in E as [->|(t0' & ns' & c' & ->)]; right.
    + exists t0, ns, c. by rewrite app_nil_r.
    + exists ((t0 ++ [EvExec ns c]) ++ t0'), ns', c'. by rewrite app_assoc.
Qed.

Ltac split_list E t1 :=
  repeat (destruct t1 as [|? t1]; simplify_eq/=).

Lemma icm_shape_collect cbo ns r t :
  is_Some cbo -> icm_shape cbo ns r t ->
  collected t = assembled t /\ collect_precedes_exec t.
Proof.
  intros [cb ->] [[-> _]|[[c ->]|(c & _ & -> & _)]]; (split; [done|]);
    intros t1 ns' c' t2 E; simpl in E.
  - by destruct t1.
  - split_list E t1. by exists [EvAssembled c'].
  - split_list E t1.
Qed.

Lemma form_unit_shape_facts cbo ns form r t :
  form_unit_shape cbo ns form r t ->
  analyzed t = [form] /\ preambles t = [] /\ invoked t = []
  /\ analyze_follows_exec t
  /\ (r = Returns tt -> exists t0 c, t = t0 ++ [EvExec ns c]).
Proof.
  intros [[-> [e ->]]|(a & ti & -> & [[-> [e ->]]|[[c ->]|(c & _ & -> & [e ->])]])].
  - repeat split; try done. intros t1 f t2 E. split_list E t1. by left.
  - repeat split; try done. intros t1 f t2 E. split_list E t1. by left.
  - destruct cbo; simpl; (repeat split; [done..| |]).
    + intros t1 f t2 E. split_list E t1. by left.
    + intros _. by eexists [_; _; _; _], c.
    + intros t1 f t2 E. split_list E t1. by left.
    + intros _. by eexists [_; _; _], c.
  - repeat split; try done. intros t1 f t2 E. split_list E t1. by left.
Qed.

Lemma form_unit_shape_collect cbo ns form r t :
  is_Some cbo -> form_unit_shape cbo ns form r t ->
  collected t = assembled t /\ collect_precedes_exec t.
Proof.
  intros Hcb [[-> _]|(a & ti & -> & Hti)].
  - split; [done|]. intros t1 ns' c' t2 E. split_list E t1.
  - apply icm_shape_collect in Hti as [Hc Hp]; [|done]. split; [done|].
    apply (collect_precedes_exec_app [EvAnalyze form; EvGenerate a] ti); [|done].
    intros t1 ns' c' t2 E. split_list E t1.
Qed.

Lemma cmf_spec ctx ns cbo form w :
  wp (compile_module_form ctx ns cbo form) w
     (fun r _ t => form_unit_shape cbo ns form r t).
Proof.
  unfold compile_module_form, form_unit_shape, raised.
  apply wp_bind, wp_host. intros [lisp_ast|e] w1 _; [|left; eauto].
  apply wp_bind, wp_host. intros [nodes|e] w2 _.
  - eapply wp_mono; [apply icm_spec|]. simpl. intros r w3 ti Hti.
    right. by exists lisp_ast, ti.
  - right. exists lisp_ast, []. split; [done|]. left. split; [done|]. by exists e.
Qed.

Lemma for_each_spec ctx ns cbo forms w :
  wp (for_each forms (compile_module_form ctx ns cbo)) w
     (fun r _ t => loop_shape cbo ns forms r t).
Proof.
  revert w. induction forms as [|form rest IH]; intros w; simpl; [done|].
  apply wp_bind. eapply wp_mono; [apply cmf_spec|]. simpl.
  intros [[]|e] w1 tu Hu.
  - eapply wp_mono; [apply IH|]. simpl. intros r w2 t' Hrest.
    exists (Returns tt), tu. split; [done|]. right. split; [done|]. by exists t'.
  - exists (Raises e), tu. split; [done|]. left. unfold raised. eauto.
Qed.

Lemma loop_shape_collect cbo ns forms r t :
  is_Some cbo -> loop_shape cbo ns forms r t ->
  collected t = assembled t /\ collect_precedes_exec t.
Proof.
  intros Hcb. revert t. induction forms as [|form rest IH]; intros t; simpl.
  - intros [-> _]. split; [done|]. intros t1 ns' c' t2 E. by destruct t1.
  - intros (ru & tu & Hu & [(_ & _ & ->)|(_ & t' & -> & Hrest)]);
      apply form_unit_shape_collect in Hu as [Hc Hp]; try done.
    apply IH in Hrest as [Hc' Hp'].
    rewrite collected_app, assembled_app, Hc, Hc'. split; [done|].
    by apply collect_precedes_exec_app.
Qed.

Lemma loop_shape_order cbo ns forms r t :
  loop_shape cbo ns forms r t ->
  analyzed t `prefix_of` forms
  /\ (r = Returns tt -> analyzed t = forms)
  /\ analyze_follows_exec t.
Proof.
  revert t. induction forms as [|form rest IH]; intros t; simpl.
  - intros [-> _]. repeat split; try done. intros t1 f t2 E. by destruct t1.
  - intros (ru & tu & Hu & Hcase).
    apply form_unit_shape_facts in Hu as (Ha & _ & _ & Hf & Hend).
    destruct Hcase as [([e ->] & -> & ->)|(-> & t' & -> & Hrest)].
    + rewrite Ha. repeat split; try done. by exists rest.
    + apply IH in Hrest as (Hpre & Hall & Hf').
      rewrite analyzed_app, Ha. simpl. repeat split.
      * by apply prefix_cons.
      * intros Hr. by rewrite Hall.
      * apply analyze_follows_exec_app; try done.
        right. destruct (Hend eq_refl) as (t0 & c & ->). by exists t0, ns, c.
Qed.

End Shapes.

Section FormDriverShape.
Context `{H : Host}.

Lemma cef_spec f ctx ns base cbo w :
  wp (compile_and_exec_form (Some f) ctx ns base cbo) w
     (fun r _ t => form_driver_shape ctx ns cbo (Some f) w r t).
Proof.
  unfold compile_and_exec_form.
  apply wp_bind. unfold wp at 1.
  destruct (getattr_module ns BOOTSTRAPPED w) as [[[v|e] w0] t0] eqn:Eflag.
  2:{ assert (t0 = []) as ->.
      { revert Eflag. unfold getattr_module. repeat case_match; congruence. }
      left. split; [done|]. by exists e. }
  assert (w0 = w /\ t0 = []) as [-> ->].
  { revert Eflag. unfold getattr_module. repeat case_match; by intros [= ? ? ?]. }
  cbn [outcome world trace fst snd].
  match goal with
  | |- wp (bind ?g ?k) _ _ =>
      assert (forall w1, wp (k tt) w1 (fun r _ t =>
        exists tu tw, t = tu ++ tw
          /\ ((tu = [] /\ tw = [] /\ raised r)
              \/ (exists ru, form_unit_shape cbo ns (Some f) ru tu
                    /\ ((raised ru /\ raised r /\ tw = [])
                      \/ (ru = Returns tt
                          /\ exists name, tw = [EvInvoke ns name; EvDel ns name]))))))
        as Htail
  end.
  { intros w1. cbv beta.
    apply wp_bind, wp_quiet. intros r w2. destruct (genname base w1) as [n w2'].
    intros [= <- <-].
    assert (forall e : Exn HostExn, raised (Raises e : Result (Val Obj))) as Hr
      by (intros e; by exists e).
    assert (forall e : Exn HostExn, raised (Raises e : Result unit)) as Hr'
      by (intros e; by exists e).
    apply wp_bind, wp_host. intros [lisp_ast|e] w3 _.
    2:{ exists [EvAnalyze (Some f)], []. split; [done|]. right. exists (Raises e).
        split; [left; by split|]. left. by repeat split. }
    assert (forall (e : Exn HostExn) ti, icm_shape cbo ns (Raises e) ti ->
      exists tu tw,
        [] ++ [EvAnalyze (Some f)] ++ [EvGenerate lisp_ast] ++ ti = tu ++ tw
        /\ ((tu = [] /\ tw = [] /\ raised (Raises e : Result (Val Obj)))
            \/ (exists ru, form_unit_shape cbo ns (Some f) ru tu
                  /\ ((raised ru /\ raised (Raises e : Result (Val Obj)) /\ tw = [])
                      \/ (ru = Returns tt
                          /\ exists name, tw = [EvInvoke ns name; EvDel ns name])))))
      as Hfail.
    { intros e ti Hti. exists (EvAnalyze (Some f) :: EvGenerate lisp_ast :: ti), [].
      split; [by rewrite app_nil_r|]. right. exists (Raises e). split.
      - right. by exists lisp_ast, ti.
      - left. by repeat split. }
    apply wp_bind, wp_host. intros [py_ast|e] w4 _.
    2:{ apply (Hfail e []). left. by split. }
    apply wp_bind, wp_pure. destruct (optimizer_visit _ _) as [ast_module|e].
    2:{ apply (Hfail e []). left. by split. }
    apply wp_bind, wp_emit. intros [[]|e] w5.
    2:{ apply (Hfail e []). left. by split. }
    apply wp_bind, wp_compile.
    2:{ intros e _. apply (Hfail e []). left. by split. }
    intros bytecode _.
    assert (forall w6,
      wp (host (EvExec ns bytecode) (py_exec bytecode ns) ;;;
          try_finally (invoke ns n) (del_item ns n)) w6
         (fun r _ t => (raised r /\ t = [EvExec ns bytecode])
            \/ t = [EvExec ns bytecode; EvInvoke ns n; EvDel ns n])) as Hrun.
    { intros w6. apply wp_bind, wp_host. intros [[]|e] w7 _; [|left; by split].
      apply wp_try_finally, wp_invoke. intros r w8. apply wp_del_item; by right. }
    assert (forall (r : Result (Val Obj)) t,
      (raised r /\ t = [EvExec ns bytecode])
        \/ t = [EvExec ns bytecode; EvInvoke ns n; EvDel ns n] ->
      exists tu tw,
        [EvAnalyze (Some f); EvGenerate lisp_ast; EvAssembled bytecode]
          ++ collect_events cbo bytecode ++ t = tu ++ tw
        /\ ((tu = [] /\ tw = [] /\ raised r)
            \/ (exists ru, form_unit_shape cbo ns (Some f) ru tu
                  /\ ((raised ru /\ raised r /\ tw = [])
                      \/ (ru = Returns tt
                          /\ exists name, tw = [EvInvoke ns name; EvDel ns name])))))
      as Hdone.
    { intros r t [[[e ->] ->]| ->].
      - eexists _, []. split; [by rewrite app_nil_r|]. right. exists (Raises e). split.
        + right. exists lisp_ast, (EvAssembled bytecode :: collect_events cbo bytecode
                                     ++ [EvExec ns bytecode]).
          split; [done|]. right; left. by exists bytecode.
        + left. by repeat split.
      - exists ([EvAnalyze (Some f); EvGenerate lisp_ast; EvAssembled bytecode]
                  ++ collect_events cbo bytecode ++ [EvExec ns bytecode]),
               [EvInvoke ns n; EvDel ns n].
        split; [by rewrite <-!app_assoc|]. right. exists (Returns tt). split.
        + right. exists lisp_ast, (EvAssembled bytecode :: collect_events cbo bytecode
                                     ++ [EvExec ns bytecode]).
          split; [done|]. right; left. by exists bytecode.
        + right. split; [done|]. by exists n. }
    apply wp_bind, wp_collect.
    - intros cb [[]|e] w6 -> _.
      + eapply wp_mono; [apply Hrun|]. intros r w7 t Ht. by apply Hdone in Ht.
      + apply (Hfail e [EvAssembled bytecode; EvCollect bytecode]).
        right; right. exists bytecode. by repeat split.
    - intros ->. eapply wp_mono; [apply Hrun|]. intros r w7 t Ht. by apply Hdone in Ht. }
  apply wp_bind. unfold wp at 1.
  destruct (guard_spec (generator_context ctx) (py_ast_optimizer ctx) ns v w)
    as [[Hv ->]|(Hv & Hs & ->)]; cbn [outcome world trace fst snd].
  - eapply wp_mono; [apply Htail|]. intros r w1 t (tu & tw & -> & Hcase).
    right. exists v, [], tu, tw. rewrite Eflag. repeat split; auto.
  - clear Hs.
    pose proof (bootstrap_spec (generator_context ctx) (py_ast_optimizer ctx) ns None w)
      as [Hs _].
    apply bootstrap_shape_facts in Hs as (_ & Ha & _ & Hi & Hc).
    destruct (outcome (_bootstrap_module _ _ _ _ _)) as [[]|e] eqn:Eboot.
    + eapply wp_mono; [apply Htail|]. intros r w1 t (tu & tw & -> & Hcase).
      right. exists v, (trace (_bootstrap_module (generator_context ctx)
                                 (py_ast_optimizer ctx) ns None w)), tu, tw.
      rewrite Eflag. repeat split; auto.
    + right. exists v, (trace (_bootstrap_module (generator_context ctx)
                                 (py_ast_optimizer ctx) ns None w)), [], [].
      rewrite Eflag, !app_nil_r. repeat split; auto.
      left. repeat split; auto. by exists e.
Qed.

End FormDriverShape.

(** ** The drivers *)

Section Claims.
Context `{H : Host}.

Lemma for_each_app {A} (xs ys : list A) (body : A -> M unit) w :
  for_each (xs ++ ys) body w = (for_each xs body ;;; for_each ys body) w.
Proof.
  revert w. induction xs as [|x xs IH]; intros w; simpl.
  - rewrite (bind_returns (ret tt) _ w tt w []) by done. simpl. apply run_eta.
  - destruct (body x w) as [[[[]|e] w1] t1] eqn:E.
    + rewrite (bind_returns _ _ _ _ _ _ E), IH.
      destruct (for_each xs body w1) as [[[[]|e] w2] t2] eqn:E2.
      * rewrite (bind_returns _ _ _ _ _ _ E2).
        assert (bind (body x) (fun _ => for_each xs body) w = (Returns tt, w2, t1 ++ t2)) as E3.
        { by rewrite (bind_returns _ _ _ _ _ _ E), E2. }
        rewrite (bind_returns _ _ _ _ _ _ E3). cbn [outcome world trace fst snd].
        by rewrite app_assoc.
      * rewrite (bind_raises _ _ _ _ _ _ E2).
        assert (bind (body x) (fun _ => for_each xs body) w = (Raises e, w2, t1 ++ t2)) as E3.
        { by rewrite (bind_returns _ _ _ _ _ _ E), E2. }
        by rewrite (bind_raises _ _ _ _ _ _ E3).
    + rewrite (bind_raises _ _ _ _ _ _ E).
      assert (bind (body x) (fun _ => for_each xs body) w = (Raises e, w1, t1)) as E3.
      { by rewrite (bind_raises _ _ _ _ _ _ E). }
      by rewrite (bind_raises _ _ _ _ _ _ E3).
Qed.

(** C1, as amended: for [compile_module] and [compile_and_exec_form] given
    a collector, the trace splits into the calls of the bootstrap step, in
    which the collector is never called even when the preamble unit is
    assembled, and the calls made for the caller's forms, in which the units
    handed to the collector are exactly the units assembled, in order, and
    every [exec] comes right after the collector was called on the unit it
    executes. *)
Theorem collector_called_once_per_form_unit ctx ns cb w :
  (forall forms, exists tb tf,
      trace (compile_module forms ctx ns (Some cb) w) = tb ++ tf
      /\ tb = trace (_bootstrap_module (generator_context ctx) (py_ast_optimizer ctx)
                       ns None w)
      /\ collected tb = []
      /\ collected tf = assembled tf
      /\ collect_precedes_exec tf)
  /\ (forall form base, exists tb tf,
      trace (compile_and_exec_form form ctx ns base (Some cb) w) = tb ++ tf
      /\ (tb = [] \/ tb = trace (_bootstrap_module (generator_context ctx)
                                   (py_ast_optimizer ctx) ns None w))
      /\ collected tb = []
      /\ collected tf = assembled tf
      /\ collect_precedes_exec tf).
Proof.
  assert (collect_precedes_exec []) as Hnil.
  { intros t1 ns' c' t2 E. by destruct t1. }
  split.
  - intros forms.
    pose proof (bootstrap_spec (generator_context ctx) (py_ast_optimizer ctx) ns None w)
      as [Hs _].
    apply bootstrap_shape_facts in Hs as (_ & _ & _ & _ & Hc).
    unfold compile_module.
    destruct (_bootstrap_module _ _ _ _ w) as [[[[]|e] w1] tb] eqn:Eb;
      cbn [trace snd] in *.
    + rewrite (bind_returns _ _ _ _ _ _ Eb). cbn [trace snd].
      pose proof (for_each_spec ctx ns (Some cb) forms w1) as Hl.
      apply loop_shape_collect in Hl as [? ?]; [|done].
      eexists tb, _. repeat split; auto.
    + rewrite (bind_raises _ _ _ _ _ _ Eb). cbn [trace snd].
      exists tb, []. rewrite app_nil_r. repeat split; auto.
  - intros [f|] base; [|exists [], []; repeat split; auto].
    destruct (cef_spec f ctx ns base (Some cb) w)
      as [[-> _]|(v & tb & tu & tw & -> & _ & Hg & Hc & _ & _ & Hcase)];
      [exists [], []; repeat split; auto|].
    exists tb, (tu ++ tw). split; [done|].
    split; [destruct Hg as [[_ ->]|[_ ->]]; auto|]. split; [done|].
    destruct Hcase as [(-> & -> & _)|(ru & Hu & Hw)]; [done|].
    apply form_unit_shape_collect in Hu as [Hcu Hpu]; [|done].
    rewrite collected_app, assembled_app, Hcu.
    destruct Hw as [(_ & _ & ->)|(_ & name & ->)].
    + split; [done|]. by apply collect_precedes_exec_app.
    + split; [done|]. apply collect_precedes_exec_app; [done|].
      intros t1 ns' c' t2 E. repeat (destruct t1 as [|? t1]; simplify_eq/=).
Qed.

(** C9: on the absent form [compile_and_exec_form] returns [None], leaves
    the state of the process as it was and makes no call at all: no
    bootstrap, no analysis, no generation, no wrapper. *)
Theorem absent_form_is_noop ctx ns base cbo w :
  compile_and_exec_form None ctx ns base cbo w = (Returns VNone, w, []).
Proof. reflexivity. Qed.

(** C10: a form that is not [None] and evaluates to nil is analyzed and its
    wrapper is invoked, yet what [compile_and_exec_form] returns for it is
    the very value it returns for the absent form, for which nothing is
    evaluated: the return value does not tell the two apart. *)
Theorem nil_result_same_as_absent f ctx ns base cbo w :
  outcome (compile_and_exec_form (Some f) ctx ns base cbo w) = Returns VNone ->
  outcome (compile_and_exec_form (Some f) ctx ns base cbo w)
    = outcome (compile_and_exec_form None ctx ns base cbo w)
  /\ analyzed (trace (compile_and_exec_form (Some f) ctx ns base cbo w)) = [Some f]
  /\ (exists name,
        invoked (trace (compile_and_exec_form (Some f) ctx ns base cbo w)) = [(ns, name)])
  /\ trace (compile_and_exec_form None ctx ns base cbo w) = [].
Proof.
  intros Hr. split; [by rewrite Hr|]. split; [|split; [|done]].
  all: destruct (cef_spec f ctx ns base cbo w)
      as [[_ [e He]]|(v & tb & tu & tw & -> & _ & _ & _ & Ha & Hi & Hcase)];
      [congruence|].
  all: destruct Hcase as [(_ & _ & [e He])|(ru & Hu & [(_ & [e He] & _)|(-> & name & ->)])];
      [congruence..|].
  all: apply form_unit_shape_facts in Hu as (Hau & _ & Hiu & _).
  - by rewrite !analyzed_app, Ha, Hau.
  - exists name. by rewrite !invoked_app, Hi, Hiu.
Qed.

(** C2, as amended: the flag is checked by [compile_and_exec_form], not by
    the bootstrap step.  Once [_bootstrap_module] has returned on a
    namespace, a [compile_and_exec_form] on that namespace asks for no
    preamble; [_bootstrap_module] itself asks for the preamble each time it
    is called, whatever the flag. *)
Theorem bootstrap_guarded_by_form_driver gctx optimizer cbo0 ns w0 form ctx base cbo :
  outcome (_bootstrap_module gctx optimizer ns cbo0 w0) = Returns tt ->
  preambles (trace (compile_and_exec_form form ctx ns base cbo
                      (world (_bootstrap_module gctx optimizer ns cbo0 w0)))) = []
  /\ (forall w, preambles (trace (_bootstrap_module gctx optimizer ns cbo0 w)) = [ns]).
Proof.
  intros Hok. split.
  - destruct (bootstrap_spec gctx optimizer ns cbo0 w0) as [_ Hflag].
    specialize (Hflag Hok). set (w := world _) in *.
    destruct form as [f|]; [|done].
    destruct (cef_spec f ctx ns base cbo w)
      as [[-> _]|(v & tb & tu & tw & -> & Hv & Hg & _ & _ & _ & Hcase)]; [done|].
    assert (v = VBool true) as ->.
    { revert Hv. unfold getattr_module. rewrite Hflag. by intros [= <-]. }
    destruct Hg as [[_ ->]|[? _]]; [|done].
    rewrite !preambles_app. simpl.
    destruct Hcase as [(-> & -> & _)|(ru & Hu & Hw)]; [done|].
    apply form_unit_shape_facts in Hu as (_ & -> & _).
    by destruct Hw as [(_ & _ & ->)|(_ & name & ->)].
  - intros w. destruct (bootstrap_spec gctx optimizer ns cbo0 w) as [Hs _].
    by apply bootstrap_shape_facts in Hs as (? & _).
Qed.

(** C6: when [_bootstrap_module] raises, it has done what generating and
    loading the preamble did and nothing more: same exception, same state,
    same calls, and the flag was not assigned.  In any run the flag is
    assigned only as the last step of a bootstrap that returns, right after
    the [exec] of the preamble. *)
Theorem bootstrap_failure_sets_no_flag gctx optimizer ns cbo w e :
  outcome (_bootstrap_module gctx optimizer ns cbo w) = Raises e ->
  _bootstrap_module gctx optimizer ns cbo w
    = (preamble <- host (EvPreamble ns) (py_module_preamble ns) ;;
       _incremental_compile_module optimizer preamble ns (gctx_filename gctx) cbo) w
  /\ (EvSetBootstrapped ns ∉ trace (_bootstrap_module gctx optimizer ns cbo w))
  /\ (forall w', EvSetBootstrapped ns ∈ trace (_bootstrap_module gctx optimizer ns cbo w') ->
        outcome (_bootstrap_module gctx optimizer ns cbo w') = Returns tt
        /\ w_modules (world (_bootstrap_module gctx optimizer ns cbo w')) ns
             !! BOOTSTRAPPED = Some (VBool true)
        /\ exists t0 c,
             trace (_bootstrap_module gctx optimizer ns cbo w')
             = t0 ++ [EvExec ns c; EvSetBootstrapped ns]).
Proof.
  assert (forall w', bootstrap_shape cbo ns
            (outcome (_bootstrap_module gctx optimizer ns cbo w'))
            (trace (_bootstrap_module gctx optimizer ns cbo w')) ->
          raised (outcome (_bootstrap_module gctx optimizer ns cbo w')) ->
          EvSetBootstrapped ns ∉ trace (_bootstrap_module gctx optimizer ns cbo w'))
    as Hnoflag.
  { intros w' Hs [e' He']. rewrite He' in Hs.
    destruct Hs as [[-> _]|[(ti & -> & _ & Hti)|(c & ? & _)]]; [| |done].
    - by intros [=]%list_elem_of_singleton.
    - intros [[=]|Hin]%elem_of_cons.
      destruct Hti as [[-> _]|[[c ->]|(c & _ & -> & _)]].
      + by apply not_elem_of_nil in Hin.
      + destruct cbo; simpl in Hin;
          repeat (apply elem_of_cons in Hin as [[=]|Hin]); by apply not_elem_of_nil in Hin.
      + repeat (apply elem_of_cons in Hin as [[=]|Hin]); by apply not_elem_of_nil in Hin. }
  intros Hfail. split; [|split].
  - revert Hfail. unfold _bootstrap_module.
    destruct (host (EvPreamble ns) (py_module_preamble ns) w)
      as [[[preamble|e0] w1] t1] eqn:Ep.
    + rewrite !(bind_returns _ _ _ _ _ _ Ep).
      destruct (_incremental_compile_module _ _ _ _ _ w1) as [[[[]|e1] w2] t2] eqn:Ei.
      * rewrite (bind_returns _ _ _ _ _ _ Ei). by cbn.
      * by rewrite (bind_raises _ _ _ _ _ _ Ei).
    + by rewrite !(bind_raises _ _ _ _ _ _ Ep).
  - apply Hnoflag; [apply (bootstrap_spec gctx optimizer ns cbo w)|by exists e].
  - intros w' Hin. destruct (bootstrap_spec gctx optimizer ns cbo w') as [Hs Hflag].
    destruct (outcome (_bootstrap_module gctx optimizer ns cbo w')) as [[]|e'] eqn:Eo.
    + split; [done|]. split; [by apply Hflag|].
      destruct Hs as [[_ [? ?]]|[(ti & _ & [? ?] & _)|(c & _ & ->)]]; [done..|].
      by exists (EvPreamble ns :: EvAssembled c :: collect_events cbo c), c.
    + exfalso. revert Hin. apply Hnoflag; [by rewrite Eo|by exists e'].
Qed.

(** C7: [compile_module] on [forms1 ++ forms2] is [compile_module] on
    [forms1] followed, when that returned, by the loop over [forms2] from the
    state it left, and is [compile_module] on [forms1], same exception and
    same state, when that raised.  After the bootstrap the forms analyzed
    are a prefix of the forms supplied, in order, all of them when the
    driver returns, and every analysis but the first comes right after the
    [exec] of the unit before it. *)
Theorem compile_module_in_order forms1 forms2 ctx ns cbo w :
  compile_module (forms1 ++ forms2) ctx ns cbo w
    = match outcome (compile_module forms1 ctx ns cbo w) with
      | Returns _ =>
          let w1 := world (compile_module forms1 ctx ns cbo w) in
          let rest := for_each forms2 (compile_module_form ctx ns cbo) w1 in
          (outcome rest, world rest,
           trace (compile_module forms1 ctx ns cbo w) ++ trace rest)
      | Raises e => compile_module forms1 ctx ns cbo w
      end
  /\ exists tb tl,
       trace (compile_module (forms1 ++ forms2) ctx ns cbo w) = tb ++ tl
       /\ tb = trace (_bootstrap_module (generator_context ctx) (py_ast_optimizer ctx)
                        ns None w)
       /\ analyzed tl `prefix_of` forms1 ++ forms2
       /\ (outcome (compile_module (forms1 ++ forms2) ctx ns cbo w) = Returns tt ->
           analyzed tl = forms1 ++ forms2)
       /\ analyze_follows_exec tl.
Proof.
  split.
  - unfold compile_module.
    destruct (_bootstrap_module (generator_context ctx) (py_ast_optimizer ctx) ns None w)
      as [[[[]|e] w1] tb] eqn:Eb.
    + rewrite !(bind_returns _ _ _ _ _ _ Eb), for_each_app.
      cbn [outcome world trace fst snd].
      destruct (for_each forms1 (compile_module_form ctx ns cbo) w1) as [[[[]|e] w2] t1] eqn:E1.
      * rewrite (bind_returns _ _ _ _ _ _ E1). cbn [outcome world trace fst snd].
        by rewrite app_assoc.
      * by rewrite (bind_raises _ _ _ _ _ _ E1).
    + by rewrite !(bind_raises _ _ _ _ _ _ Eb).
  - unfold compile_module.
    destruct (_bootstrap_module (generator_context ctx) (py_ast_optimizer ctx) ns None w)
      as [[[[]|e] w1] tb] eqn:Eb.
    + rewrite (bind_returns _ _ _ _ _ _ Eb). cbn [outcome world trace fst snd].
      pose proof (for_each_spec ctx ns cbo (forms1 ++ forms2) w1) as Hl.
      apply loop_shape_order in Hl as (? & ? & ?).
      by eexists tb, _.
    + rewrite (bind_raises _ _ _ _ _ _ Eb). cbn [outcome world trace fst snd].
      exists tb, []. rewrite app_nil_r. repeat split; try done.
      * apply prefix_nil.
      * intros t1 f t2 E. by destruct t1.
Qed.

End Claims.

(** ** Replaying collected bytecode *)

Section Replay.
Context `{H : Host}.
Context (ctx : CompilerContext) (ns : Namespace) (cb : BytecodeCollector).
Context (frame : ReplayFrame ctx ns cb).

Lemma emit_trace module w : trace (_emit_ast_string ns module w) = [].
Proof. by apply (wp_emit ns module w (fun _ _ t => t = [])). Qed.

Lemma run_determined_bind {A B} (m : M A) (k : A -> M B) :
  run_determined ns m -> (forall a, run_determined ns (k a)) ->
  run_determined ns (bind m k).
Proof.
  intros Hm Hk w w' Hw. destruct (Hm w w' Hw) as [Ho Hd]. revert Ho Hd.
  destruct (m w) as [[[a|e] w1] t1] eqn:E; destruct (m w') as [[[a'|e'] w1'] t1'] eqn:E';
    cbn [outcome world fst snd]; intros [= <-] Hd.
  - rewrite (bind_returns _ _ _ _ _ _ E), (bind_returns _ _ _ _ _ _ E').
    apply (Hk a w1 w1' Hd).
  - by rewrite (bind_raises _ _ _ _ _ _ E), (bind_raises _ _ _ _ _ _ E').
Qed.

Lemma run_determined_host {A} ev (c : HostCall A) :
  module_determined ns c -> run_determined ns (host ev c).
Proof.
  intros Hc w w' Hw. destruct (Hc w w' Hw) as [Ho Hd]. revert Ho Hd.
  unfold host, outcome, world. by destruct (c w), (c w').
Qed.

Lemma run_determined_emit module : run_determined ns (_emit_ast_string ns module).
Proof.
  intros w w' Hw.
  destruct (rf_emit _ _ _ frame module w) as [-> ->].
  by destruct (rf_emit _ _ _ frame module w') as [-> ->].
Qed.

Lemma icm_determined optimizer py_ast fn :
  run_determined ns (_incremental_compile_module optimizer py_ast ns fn None).
Proof.
  unfold _incremental_compile_module.
  apply run_determined_bind; [done|]. intros module.
  apply run_determined_bind; [apply run_determined_emit|]. intros _.
  apply run_determined_bind.
  { intros w w' Hw. unfold compile. by destruct (py_compile _ _). }
  intros bytecode. apply run_determined_bind; [done|]. intros _.
  apply run_determined_host, (rf_exec _ _ _ frame).
Qed.

Lemma bootstrap_determined gctx optimizer :
  run_determined ns (_bootstrap_module gctx optimizer ns None).
Proof.
  unfold _bootstrap_module.
  apply run_determined_bind.
  { apply run_determined_host, (rf_preamble _ _ _ frame). }
  intros preamble. apply run_determined_bind; [apply icm_determined|]. intros _.
  intros w w' Hw. split; [done|].
  unfold set_bootstrapped, world; simpl. by rewrite !fn_lookup_insert, Hw.
Qed.

(** A form of the module that was loaded: one unit was collected, and the
    module is as [exec] of that unit left it. *)
Lemma cmf_returns form w :
  outcome (compile_module_form ctx ns (Some cb) form w) = Returns tt ->
  exists c w0,
    collected (trace (compile_module_form ctx ns (Some cb) form w)) = [c]
    /\ w_modules w0 ns = w_modules w ns
    /\ py_exec c ns w0 = (Returns tt, world (compile_module_form ctx ns (Some cb) form w)).
Proof.
  change (wp (compile_module_form ctx ns (Some cb) form) w (fun r w1 t =>
    r = Returns tt -> exists c w0, collected t = [c]
      /\ w_modules w0 ns = w_modules w ns /\ py_exec c ns w0 = (Returns tt, w1))).
  unfold compile_module_form, _incremental_compile_module.
  apply wp_bind, wp_host. intros [lisp_ast|e] w1 E1; [|done].
  pose proof (rf_analyze _ _ _ frame form w) as H1. rewrite E1 in H1.
  apply wp_bind, wp_host. intros [nodes|e] w2 E2; [|done].
  pose proof (rf_generate _ _ _ frame lisp_ast w1) as H2. rewrite E2 in H2.
  apply wp_bind, wp_pure. destruct (optimizer_visit _ _) as [module|e]; [|done].
  apply wp_bind. unfold wp at 1.
  destruct (rf_emit _ _ _ frame (fix_missing_locations module) w2) as [-> H3].
  rewrite emit_trace. set (w3 := world _) in *.
  apply wp_bind, wp_compile; [|done]. intros c _.
  apply wp_bind, wp_host. intros [[]|e] w4 E4; [|done].
  pose proof (rf_collect _ _ _ frame c w3) as H4. rewrite E4 in H4.
  apply wp_host. intros r w5 E5 ->. exists c, w4. split; [done|]. split; [|done].
  simpl in *. congruence.
Qed.

Lemma replay_loop forms : forall w w',
  w_modules w ns = w_modules w' ns ->
  outcome (for_each forms (compile_module_form ctx ns (Some cb)) w) = Returns tt ->
  let direct := for_each forms (compile_module_form ctx ns (Some cb)) w in
  let replay :=
    for_each (collected (trace direct))
      (fun bytecode => host (EvExec ns bytecode) (py_exec bytecode ns)) w' in
  outcome replay = Returns tt
  /\ w_modules (world replay) ns = w_modules (world direct) ns
  /\ analyzed (trace replay) = [] /\ generated (trace replay) = [].
Proof.
  induction forms as [|form rest IH]; intros w w' Hw Hok; [done|].
  cbn zeta. revert Hok. simpl.
  destruct (compile_module_form ctx ns (Some cb) form w) as [[[[]|e] w1] t1] eqn:E1.
  2:{ by rewrite (bind_raises _ _ _ _ _ _ E1). }
  rewrite (bind_returns _ _ _ _ _ _ E1). cbn [outcome world trace fst snd]. intros Hok.
  destruct (cmf_returns form w) as (c & w0 & Hc & Hw0 & Hexec); [by rewrite E1|].
  rewrite E1 in Hc, Hexec. cbn [world trace fst snd] in Hc, Hexec.
  rewrite collected_app, Hc. simpl.
  destruct (rf_exec _ _ _ frame c w0 w') as [Ho Hd]; [congruence|].
  rewrite Hexec in Ho, Hd. simpl in Ho, Hd.
  destruct (py_exec c ns w') as [r1 w1'] eqn:E'. simpl in Ho, Hd. subst r1.
  assert (host (EvExec ns c) (py_exec c ns) w' = (Returns tt, w1', [EvExec ns c])) as Eh.
  { unfold host. by rewrite E'. }
  rewrite (bind_returns _ _ _ _ _ _ Eh). cbn [outcome world trace fst snd].
  destruct (IH w1 w1' Hd Hok) as (? & ? & Ha & Hg).
  rewrite analyzed_app, generated_app, Ha, Hg. by repeat split.
Qed.

End Replay.

(** C3: when analysis, generation, emission and the collector leave the
    module of the namespace alone, and the preamble and [exec] depend on that
    module only, then [compile_bytecode] on the units that a returning
    [compile_module] handed to its collector, run on a namespace whose module
    starts as the original one did, returns and leaves a module equal to the
    one [compile_module] left; it calls neither the analyzer nor the
    generator. *)
Theorem replay_equivalence `{H : Host} forms ctx ns cb w w' :
  ReplayFrame ctx ns cb ->
  w_modules w ns = w_modules w' ns ->
  outcome (compile_module forms ctx ns (Some cb) w) = Returns tt ->
  let direct := compile_module forms ctx ns (Some cb) w in
  let replay :=
    compile_bytecode (collected (trace direct))
      (generator_context ctx) (py_ast_optimizer ctx) ns w' in
  outcome replay = Returns tt
  /\ w_modules (world replay) ns = w_modules (world direct) ns
  /\ analyzed (trace replay) = [] /\ generated (trace replay) = [].
Proof.
  intros frame Hw Hok. cbn zeta. revert Hok.
  unfold compile_module, compile_bytecode.
  pose proof (bootstrap_spec (generator_context ctx) (py_ast_optimizer ctx) ns None w)
    as [Hs _].
  apply bootstrap_shape_facts in Hs as (_ & _ & _ & _ & Hc). specialize (Hc eq_refl).
  pose proof (bootstrap_spec (generator_context ctx) (py_ast_optimizer ctx) ns None w')
    as [Hs' _].
  apply bootstrap_shape_facts in Hs' as (_ & Ha' & Hg' & _).
  destruct (bootstrap_determined ctx ns cb frame (generator_context ctx)
              (py_ast_optimizer ctx) w w' Hw) as [Ho Hd].
  destruct (_bootstrap_module (generator_context ctx) (py_ast_optimizer ctx) ns None w)
    as [[[[]|e] w1] tb] eqn:Eb.
  2:{ by rewrite (bind_raises _ _ _ _ _ _ Eb). }
  destruct (_bootstrap_module (generator_context ctx) (py_ast_optimizer ctx) ns None w')
    as [[r1' w1'] tb'] eqn:Eb'.
  cbn [outcome world trace fst snd] in *. subst r1'.
  rewrite (bind_returns _ _ _ _ _ _ Eb). cbn [outcome world trace fst snd]. intros Hok.
  rewrite collected_app, Hc. simpl.
  rewrite (bind_returns _ _ _ _ _ _ Eb'). cbn [outcome world trace fst snd].
  destruct (replay_loop ctx ns cb frame forms w1 w1' Hd Hok) as (? & ? & Ha & Hg).
  rewrite analyzed_app, generated_app, Ha, Hg, Ha', Hg'. by repeat split.
Qed.

(** ** The small host: concrete runs *)

Section ToyRuns.
Import Toy.

Lemma toy_frame : ReplayFrame toy_ctx 0 keep_nothing.
Proof.
  split.
  - intros form w. simpl. unfold toy_analyze. by destruct form as [[]|].
  - intros lisp_ast w. reflexivity.
  - intros bytecode w. reflexivity.
  - intros module w. unfold _emit_ast_string. simpl.
    destruct (emit (w_ext w)); simpl; [|done].
    unfold bind, quiet; simpl. by destruct (to_stdout (w_ext w)).
  - intros w w' Hw. by split.
  - intros bytecode w w' Hw. simpl. unfold toy_exec. rewrite Hw.
    destruct (exec_body 0 bytecode (w_modules w' 0)) as [r d]. simpl.
    by rewrite !fn_lookup_insert.
Qed.

(** Against C1 as stated: [compile_module] on a module of one form, with a
    collector.  Two units are assembled, the preamble and the form; the
    collector is called once. *)
Lemma collector_misses_preamble :
  let t := trace (compile_module [Some (FNum 1)] toy_ctx 0 (Some keep_nothing) fresh) in
  length (collected t) = 1 /\ length (assembled t) = 2
  /\ length (collected t) <> length (assembled t).
Proof. vm_compute. repeat split. discriminate. Qed.

(** Against C2 as stated: [_bootstrap_module] called again on a namespace
    whose flag it has just set.  The second call asks for the preamble,
    assembles it and executes it again. *)
Lemma bootstrap_twice_runs_twice :
  let first := _bootstrap_module toy_gctx toy_optimizer 0 None fresh in
  let second := _bootstrap_module toy_gctx toy_optimizer 0 None (world first) in
  outcome first = Returns tt
  /\ w_modules (world first) 0 !! BOOTSTRAPPED = Some (VBool true)
  /\ preambles (trace second) = [0]
  /\ length (executed (trace second)) = 1
  /\ length (executed (trace first ++ trace second)) <> 1.
Proof. vm_compute. repeat split. discriminate. Qed.

Lemma bootstrap_guarded_by_form_driver_witness :
  preambles (trace (compile_and_exec_form (Some (FNum 3)) toy_ctx 0 _DEFAULT_FN None
                      (world (_bootstrap_module toy_gctx toy_optimizer 0 None fresh)))) = []
  /\ (forall w, preambles (trace (_bootstrap_module toy_gctx toy_optimizer 0 None w)) = [0]).
Proof.
  apply (bootstrap_guarded_by_form_driver (H := toy_host) toy_gctx toy_optimizer None 0 fresh
           (Some (FNum 3)) toy_ctx _DEFAULT_FN None).
  vm_compute. reflexivity.
Defined.

Lemma replay_equivalence_witness :
  let direct :=
    compile_module [Some (FDef "x" 1); Some (FSym "x")] toy_ctx 0
      (Some keep_nothing) fresh in
  let replay :=
    compile_bytecode (collected (trace direct))
      (generator_context toy_ctx) (py_ast_optimizer toy_ctx) 0 other_process in
  outcome replay = Returns tt
  /\ w_modules (world replay) 0 = w_modules (world direct) 0
  /\ analyzed (trace replay) = [] /\ generated (trace replay) = [].
Proof.
  apply (replay_equivalence (H := toy_host) [Some (FDef "x" 1); Some (FSym "x")] toy_ctx 0
           keep_nothing fresh other_process).
  - apply toy_frame.
  - reflexivity.
  - vm_compute. reflexivity.
Defined.

Lemma wrapper_binding_removed_witness :
  outcome (compile_and_exec_form (Some (FThrow "boom")) toy_ctx 0 _DEFAULT_FN None fresh)
    = Raises (HostError "boom")
  /\ w_modules (world (compile_and_exec_form (Some (FThrow "boom")) toy_ctx 0
                         _DEFAULT_FN None fresh)) 0 !! "__lisp_expr___7" = None
  /\ EvDel 0 "__lisp_expr___7"
       ∈ trace (compile_and_exec_form (Some (FThrow "boom")) toy_ctx 0
                  _DEFAULT_FN None fresh).
Proof.
  split; [vm_compute; reflexivity|].
  apply (wrapper_binding_removed (H := toy_host) (Some (FThrow "boom")) toy_ctx 0 _DEFAULT_FN None fresh
           "__lisp_expr___7").
  vm_compute. repeat constructor.
Defined.

Lemma bootstrap_failure_sets_no_flag_witness :
  _bootstrap_module toy_gctx toy_optimizer 0 None bare
    = (preamble <- host (EvPreamble 0) (py_module_preamble 0) ;;
       _incremental_compile_module toy_optimizer preamble 0 (gctx_filename toy_gctx) None) bare
  /\ EvSetBootstrapped 0 ∉ trace (_bootstrap_module toy_gctx toy_optimizer 0 None bare).
Proof.
  destruct (bootstrap_failure_sets_no_flag (H := toy_host) toy_gctx toy_optimizer 0 None
              bare (HostError "NameError: __builtins__")) as (Hsame & Hflag & _).
  - vm_compute. reflexivity.
  - split; [exact Hsame | exact Hflag].
Defined.

Lemma nil_result_same_as_absent_witness :
  outcome (compile_and_exec_form (Some FDoNil) toy_ctx 0 _DEFAULT_FN None fresh)
    = outcome (compile_and_exec_form None toy_ctx 0 _DEFAULT_FN None fresh)
  /\ analyzed (trace (compile_and_exec_form (Some FDoNil) toy_ctx 0 _DEFAULT_FN None fresh))
     = [Some FDoNil]
  /\ (exists name,
        invoked (trace (compile_and_exec_form (Some FDoNil) toy_ctx 0 _DEFAULT_FN None
                          fresh)) = [(0, name)])
  /\ trace (compile_and_exec_form None toy_ctx 0 _DEFAULT_FN None fresh) = [].
Proof.
  apply (nil_result_same_as_absent (H := toy_host) FDoNil toy_ctx 0 _DEFAULT_FN None fresh).
  vm_compute. reflexivity.
Defined.

Lemma compile_module_in_order_witness :
  exists tl,
    tl `suffix_of` trace (compile_module ([Some (FDef "x" 1)] ++ [Some (FSym "x")])
                            toy_ctx 0 None fresh)
    /\ analyzed tl = [Some (FDef "x" 1)] ++ [Some (FSym "x")].
Proof.
  destruct (compile_module_in_order (H := toy_host) [Some (FDef "x" 1)] [Some (FSym "x")]
              toy_ctx 0 None fresh) as [_ (tb & tl & Ht & _ & _ & Hall & _)].
  exists tl. split.
  - exists tb. exact Ht.
  - apply Hall. vm_compute. reflexivity.
Defined.

End ToyRuns.

(** * Further properties *)

(** ** More on the options *)

(** X1: whatever the overrides, every option is a key of the result; its
    value is true when the override is [True], and its default otherwise.  So
    an option that is off by default takes the value passed for it, and an
    option that is on by default is on whatever is passed. *)
Theorem override_only_turns_on (kw : Overrides) (k : OptName) :
  exists d,
    compiler_opts_kw no_overrides !! k = Some d
    /\ compiler_opts_kw kw !! k = Some (py_or (kw k) d)
    /\ (kw k = Some true -> compiler_opts_kw kw !! k = Some true)
    /\ (d = false -> forall b, kw k = Some b -> compiler_opts_kw kw !! k = Some b)
    /\ (d = true -> compiler_opts_kw kw !! k = Some true).
Proof.
  exists (documented_default k).
  assert (compiler_opts_kw kw !! k = Some (py_or (kw k) (documented_default k))) as Hv.
  { destruct k; reflexivity. }
  split; [destruct k; reflexivity|]. split; [done|]. rewrite Hv. repeat split.
  - by intros ->.
  - intros -> b ->. by destruct b.
  - intros ->. by destruct (kw k) as [[]|].
Qed.

Lemma override_only_turns_on_witness :
  compiler_opts_kw (<[USE_VAR_INDIRECTION := Some true]> no_overrides)
    !! USE_VAR_INDIRECTION = Some true
  /\ compiler_opts_kw (<[WARN_ON_UNUSED_NAMES := Some false]> no_overrides)
       !! WARN_ON_UNUSED_NAMES = Some true.
Proof.
  split.
  - destruct (override_only_turns_on
                (<[USE_VAR_INDIRECTION := Some true]> no_overrides) USE_VAR_INDIRECTION)
      as (d & _ & _ & Hon & _).
    apply Hon. reflexivity.
  - destruct (override_only_turns_on
                (<[WARN_ON_UNUSED_NAMES := Some false]> no_overrides) WARN_ON_UNUSED_NAMES)
      as (d & Hd & _ & _ & _ & Hstay).
    apply Hstay. vm_compute in Hd. congruence.
Defined.

(** ** More on the drivers *)

Section MoreDrivers.
Context `{H : Host}.

Lemma bind_ret_r (m : M unit) w : (m ;;; ret tt) w = m w.
Proof.
  destruct (m w) as [[[[]|e] w1] t1] eqn:E.
  - rewrite (bind_returns _ _ _ _ _ _ E). simpl. by rewrite app_nil_r.
  - by rewrite (bind_raises _ _ _ _ _ _ E).
Qed.

Lemma bootstrap_shape_no_flag cbo ns (r : Result unit) (t : list Event) :
  bootstrap_shape cbo ns r t -> raised r -> EvSetBootstrapped ns ∉ t.
Proof.
  intros Hs [e ->].
  destruct Hs as [[-> _]|[(ti & -> & _ & Hti)|(c & ? & _)]]; [| |done].
  - by intros [=]%list_elem_of_singleton.
  - intros [[=]|Hin]%elem_of_cons.
    destruct Hti as [[-> _]|[[c ->]|(c & _ & -> & _)]].
    + by apply not_elem_of_nil in Hin.
    + destruct cbo; simpl in Hin;
        repeat (apply elem_of_cons in Hin as [[=]|Hin]); by apply not_elem_of_nil in Hin.
    + repeat (apply elem_of_cons in Hin as [[=]|Hin]); by apply not_elem_of_nil in Hin.
Qed.

(** X2: on an empty module [compile_module] does what the bootstrap step
    does, and so does [compile_bytecode] on no unit: the namespace is
    bootstrapped all the same, and a collector is not called. *)
Theorem empty_input_bootstraps ctx gctx optimizer ns cbo w :
  compile_module [] ctx ns cbo w
    = _bootstrap_module (generator_context ctx) (py_ast_optimizer ctx) ns None w
  /\ compile_bytecode [] gctx optimizer ns w = _bootstrap_module gctx optimizer ns None w
  /\ collected (trace (compile_module [] ctx ns cbo w)) = []
  /\ (outcome (compile_module [] ctx ns cbo w) = Returns tt ->
      w_modules (world (compile_module [] ctx ns cbo w)) ns !! BOOTSTRAPPED
      = Some (VBool true)).
Proof.
  assert (compile_module [] ctx ns cbo w
    = _bootstrap_module (generator_context ctx) (py_ast_optimizer ctx) ns None w) as E.
  { apply bind_ret_r. }
  split; [done|]. split; [apply bind_ret_r|]. rewrite E.
  destruct (bootstrap_spec (generator_context ctx) (py_ast_optimizer ctx) ns None w)
    as [Hs Hflag].
  apply bootstrap_shape_facts in Hs as (_ & _ & _ & _ & Hc). auto.
Qed.

(** X3: when the bootstrap step raises, [compile_module] and
    [compile_bytecode] end as it did, with its exception, its state and its
    calls: no form is analyzed and no cached unit is executed. *)
Theorem bootstrap_failure_stops_driver forms code ctx ns cbo w e :
  outcome (_bootstrap_module (generator_context ctx) (py_ast_optimizer ctx) ns None w)
    = Raises e ->
  compile_module forms ctx ns cbo w
    = _bootstrap_module (generator_context ctx) (py_ast_optimizer ctx) ns None w
  /\ compile_bytecode code (generator_context ctx) (py_ast_optimizer ctx) ns w
     = _bootstrap_module (generator_context ctx) (py_ast_optimizer ctx) ns None w
  /\ analyzed (trace (compile_module forms ctx ns cbo w)) = []
  /\ EvSetBootstrapped ns ∉ trace (compile_module forms ctx ns cbo w).
Proof.
  intros Hfail.
  destruct (_bootstrap_module (generator_context ctx) (py_ast_optimizer ctx) ns None w)
    as [[r w1] tb] eqn:Eb. cbn [outcome fst] in Hfail. subst r.
  assert (compile_module forms ctx ns cbo w = (Raises e, w1, tb)) as E.
  { unfold compile_module. by rewrite (bind_raises _ _ _ _ _ _ Eb). }
  split; [done|]. split.
  { unfold compile_bytecode. by rewrite (bind_raises _ _ _ _ _ _ Eb). }
  rewrite E. cbn [trace snd].
  pose proof (bootstrap_spec (generator_context ctx) (py_ast_optimizer ctx) ns None w)
    as [Hs _].
  rewrite Eb in Hs. cbn [outcome trace fst snd] in Hs.
  split; [by apply bootstrap_shape_facts in Hs as (_ & Ha & _)|].
  apply (bootstrap_shape_no_flag None ns (Raises e)); [done|by exists e].
Qed.
End MoreDrivers.

Section Replaying.
Context `{H : Host}.

(** The loop of [compile_bytecode]: the calls are the [exec] of a prefix of
    the units, all of them when the loop returns. *)
Lemma exec_loop_spec ns (code : list Code) w :
  wp (for_each code (fun bytecode => host (EvExec ns bytecode) (py_exec bytecode ns))) w
     (fun r _ t => exists ran, ran `prefix_of` code /\ t = map (EvExec ns) ran
                               /\ (r = Returns tt -> ran = code)
                               /\ (raised r -> ran <> [])).
Proof.
  revert w. induction code as [|c rest IH]; intros w; simpl.
  - exists []. repeat split; try done. by intros [e ?].
  - apply wp_bind, wp_host. intros [[]|e] w1 _.
    + eapply wp_mono; [apply IH|]. simpl. intros r w2 t (ran & Hpre & -> & Hall & _).
      exists (c :: ran). repeat split; try done.
      * by apply prefix_cons.
      * intros Hr. by rewrite Hall.
    + exists [c]. repeat split; try done. by apply prefix_cons, prefix_nil.
Qed.

(** X4: [compile_bytecode] executes the units in the order given, after the
    bootstrap: the units executed are a prefix of the list, the whole list
    when it returns; a unit that raises ends the run there, with the state
    the units before it left.  On [code1 ++ code2] it is the run on [code1]
    followed, when that returned, by the execution of [code2]. *)
Theorem compile_bytecode_in_order code1 code2 gctx optimizer ns w :
  compile_bytecode (code1 ++ code2) gctx optimizer ns w
    = match outcome (compile_bytecode code1 gctx optimizer ns w) with
      | Returns _ =>
          let w1 := world (compile_bytecode code1 gctx optimizer ns w) in
          let rest :=
            for_each code2
              (fun bytecode => host (EvExec ns bytecode) (py_exec bytecode ns)) w1 in
          (outcome rest, world rest,
           trace (compile_bytecode code1 gctx optimizer ns w) ++ trace rest)
      | Raises e => compile_bytecode code1 gctx optimizer ns w
      end
  /\ exists ran,
       ran `prefix_of` code1 ++ code2
       /\ trace (compile_bytecode (code1 ++ code2) gctx optimizer ns w)
          = trace (_bootstrap_module gctx optimizer ns None w) ++ map (EvExec ns) ran
       /\ (outcome (compile_bytecode (code1 ++ code2) gctx optimizer ns w) = Returns tt ->
           ran = code1 ++ code2).
Proof.
  unfold compile_bytecode.
  destruct (_bootstrap_module gctx optimizer ns None w) as [[[[]|e] w1] tb] eqn:Eb.
  - rewrite !(bind_returns _ _ _ _ _ _ Eb). cbn [outcome world trace fst snd]. split.
    + rewrite for_each_app.
      destruct (for_each code1 _ w1) as [[[[]|e] w2] t1] eqn:E1.
      * rewrite (bind_returns _ _ _ _ _ _ E1). cbn [outcome world trace fst snd].
        by rewrite app_assoc.
      * by rewrite (bind_raises _ _ _ _ _ _ E1).
    + destruct (exec_loop_spec ns (code1 ++ code2) w1) as (ran & ? & ? & ? & _).
      exists ran. repeat split; try done. by f_equal.
  - rewrite !(bind_raises _ _ _ _ _ _ Eb). cbn [outcome world trace fst snd].
    split; [done|]. exists []. rewrite app_nil_r. repeat split; try done.
    apply prefix_nil.
Qed.

(** X5: [compile_bytecode] asks for the preamble of its namespace once and
    calls neither the analyzer, nor the generator, nor a collector, nor a
    wrapper, whatever the units and whatever they do. *)
Theorem compile_bytecode_only_executes code gctx optimizer ns w :
  preambles (trace (compile_bytecode code gctx optimizer ns w)) = [ns]
  /\ analyzed (trace (compile_bytecode code gctx optimizer ns w)) = []
  /\ generated (trace (compile_bytecode code gctx optimizer ns w)) = []
  /\ collected (trace (compile_bytecode code gctx optimizer ns w)) = []
  /\ invoked (trace (compile_bytecode code gctx optimizer ns w)) = [].
Proof.
  assert (forall ran : list Code,
    preambles (map (EvExec ns) ran) = [] /\ analyzed (map (EvExec ns) ran) = []
    /\ generated (map (EvExec ns) ran) = [] /\ collected (map (EvExec ns) ran) = []
    /\ invoked (map (EvExec ns) ran) = []) as Hexec.
  { induction ran as [|c ran IH]; [done|]. simpl. apply IH. }
  pose proof (bootstrap_spec gctx optimizer ns None w) as [Hs _].
  apply bootstrap_shape_facts in Hs as (Hp & Ha & Hg & Hi & Hc). specialize (Hc eq_refl).
  unfold compile_bytecode.
  destruct (_bootstrap_module gctx optimizer ns None w) as [[[[]|e] w1] tb] eqn:Eb;
    cbn [trace snd] in *.
  - rewrite (bind_returns _ _ _ _ _ _ Eb). cbn [trace snd].
    destruct (exec_loop_spec ns code w1) as (ran & _ & -> & _).
    destruct (Hexec ran) as (Hp' & Ha' & Hg' & Hc' & Hi').
    rewrite preambles_app, analyzed_app, generated_app, collected_app, invoked_app.
    by rewrite Hp, Ha, Hg, Hc, Hi, Hp', Ha', Hg', Hc', Hi'.
  - by rewrite (bind_raises _ _ _ _ _ _ Eb).
Qed.

End Replaying.

Section Units.
Context `{H : Host}.

Ltac units := repeat split; try done; try apply prefix_nil; try reflexivity.

Ltac split_at t1 := repeat (destruct t1 as [|? t1]; simplify_eq/=).

Lemma icm_shape_units cbo ns (r : Result unit) (t : list Event) :
  icm_shape cbo ns r t ->
  executed t `prefix_of` assembled t
  /\ length (assembled t) <= 1
  /\ (r = Returns tt -> executed t = assembled t /\ length (assembled t) = 1).
Proof.
  intros [[-> [e ->]]|[[c ->]|(c & [cb ->] & -> & [e ->])]].
  - units. simpl. lia.
  - destruct cbo; simpl; units.
  - units.
Qed.

Lemma bootstrap_shape_units cbo ns (r : Result unit) (t : list Event) :
  bootstrap_shape cbo ns r t ->
  executed t `prefix_of` assembled t
  /\ (r = Returns tt -> executed t = assembled t /\ length (assembled t) = 1).
Proof.
  intros [[-> [e ->]]|[(ti & -> & [e ->] & Hti)|(c & -> & ->)]].
  - units.
  - apply icm_shape_units in Hti as (? & _ & _). done.
  - destruct cbo; simpl; units.
Qed.

Lemma form_unit_shape_units cbo ns form (r : Result unit) (t : list Event) :
  form_unit_shape cbo ns form r t ->
  executed t `prefix_of` assembled t
  /\ (r = Returns tt -> executed t = assembled t /\ length (assembled t) = 1).
Proof.
  intros [[-> [e ->]]|(a & ti & -> & Hti)]; [units|].
  apply icm_shape_units in Hti as (? & _ & ?). done.
Qed.

Lemma loop_shape_units cbo ns forms (r : Result unit) (t : list Event) :
  loop_shape cbo ns forms r t ->
  executed t `prefix_of` assembled t
  /\ (r = Returns tt ->
      executed t = assembled t /\ length (assembled t) = length forms).
Proof.
  revert t. induction forms as [|form rest IH]; intros t; simpl.
  - intros [-> ->]. units.
  - intros (ru & tu & Hu & Hcase).
    apply form_unit_shape_units in Hu as [Hpre Hok].
    destruct Hcase as [([e ->] & -> & ->)|(-> & t' & -> & Hrest)]; [done|].
    destruct (Hok eq_refl) as [Heq Hlen]. apply IH in Hrest as [Hpre' Hok'].
    rewrite executed_app, assembled_app, Heq. split.
    + by apply prefix_app.
    + intros Hr. destruct (Hok' Hr) as [-> <-]. split; [done|].
      by rewrite length_app, Hlen.
Qed.

(** X6: [compile_module] executes nothing but the units it assembled, in the
    order it assembled them, and leaves out at most the last one: the units
    executed are a prefix of the units assembled.  When it returns, every
    unit assembled was executed, and there is one unit for each form and one
    for the preamble. *)
Theorem compile_module_runs_what_it_assembles forms ctx ns cbo w :
  executed (trace (compile_module forms ctx ns cbo w))
    `prefix_of` assembled (trace (compile_module forms ctx ns cbo w))
  /\ (outcome (compile_module forms ctx ns cbo w) = Returns tt ->
      executed (trace (compile_module forms ctx ns cbo w))
        = assembled (trace (compile_module forms ctx ns cbo w))
      /\ length (assembled (trace (compile_module forms ctx ns cbo w)))
         = S (length forms)).
Proof.
  pose proof (bootstrap_spec (generator_context ctx) (py_ast_optimizer ctx) ns None w)
    as [Hs _].
  apply bootstrap_shape_units in Hs as [Hpre Hok].
  unfold compile_module.
  destruct (_bootstrap_module (generator_context ctx) (py_ast_optimizer ctx) ns None w)
    as [[[[]|e] w1] tb] eqn:Eb; cbn [outcome trace fst snd] in *.
  - rewrite (bind_returns _ _ _ _ _ _ Eb). cbn [outcome trace fst snd].
    destruct (Hok eq_refl) as [Heq Hlen].
    pose proof (for_each_spec ctx ns cbo forms w1) as Hl.
    apply loop_shape_units in Hl as [Hpre' Hok'].
    rewrite executed_app, assembled_app, Heq. split.
    + by apply prefix_app.
    + intros Hr. destruct (Hok' Hr) as [-> <-]. split; [done|].
      by rewrite length_app, Hlen.
  - by rewrite (bind_raises _ _ _ _ _ _ Eb).
Qed.

(** X7: [_bootstrap_module] passes the collector it is given on to the
    loader: called with a collector, it hands the preamble unit to it, right
    before executing it.  A driver that passed its collector would have the
    preamble collected. *)
Theorem bootstrap_reports_to_its_collector gctx optimizer ns cb w :
  collected (trace (_bootstrap_module gctx optimizer ns (Some cb) w))
    = assembled (trace (_bootstrap_module gctx optimizer ns (Some cb) w))
  /\ collect_precedes_exec (trace (_bootstrap_module gctx optimizer ns (Some cb) w))
  /\ (outcome (_bootstrap_module gctx optimizer ns (Some cb) w) = Returns tt ->
      length (collected (trace (_bootstrap_module gctx optimizer ns (Some cb) w))) = 1).
Proof.
  pose proof (bootstrap_spec gctx optimizer ns (Some cb) w) as [Hs _].
  destruct Hs as [[-> [e He]]|[(ti & -> & [e He] & Hti)|(c & _ & ->)]].
  - repeat split; try done.
    + intros t1 ns' c' t2 E. split_at t1.
    + rewrite He. discriminate.
  - apply icm_shape_collect in Hti as [Hc Hp]; [|done]. split; [done|]. split.
    + apply (collect_precedes_exec_app [EvPreamble ns] ti); [|done].
      intros t1 ns' c' t2 E. split_at t1.
    + rewrite He. discriminate.
  - repeat split; try done.
    intros t1 ns' c' t2 E. simpl in E. split_at t1.
    by exists [EvPreamble ns'; EvAssembled c'].
Qed.

End Units.

Section MoreFormDriver.
Context `{H : Host}.

Lemma getattr_module_returns ns name w v :
  outcome (getattr_module ns name w) = Returns v ->
  getattr_module ns name w = (Returns v, w, []).
Proof. unfold getattr_module. repeat case_match; by intros [= <-]. Qed.

(** X8: on a form that is not [None], in a namespace whose flag reads
    false, [compile_and_exec_form] first runs the bootstrap step, from the
    state it was called in, and runs it once; when the bootstrap raises, the
    driver ends there with the same exception and the form is not
    analyzed. *)
Theorem form_driver_bootstraps_unflagged f ctx ns base cbo w v :
  outcome (getattr_module ns BOOTSTRAPPED w) = Returns v ->
  truthy v = false ->
  (exists rest,
     trace (compile_and_exec_form (Some f) ctx ns base cbo w)
     = trace (_bootstrap_module (generator_context ctx) (py_ast_optimizer ctx) ns None w)
       ++ rest)
  /\ preambles (trace (compile_and_exec_form (Some f) ctx ns base cbo w)) = [ns]
  /\ (forall e,
        outcome (_bootstrap_module (generator_context ctx) (py_ast_optimizer ctx) ns None w)
          = Raises e ->
        outcome (compile_and_exec_form (Some f) ctx ns base cbo w) = Raises e
        /\ world (compile_and_exec_form (Some f) ctx ns base cbo w)
           = world (_bootstrap_module (generator_context ctx) (py_ast_optimizer ctx)
                      ns None w)
        /\ analyzed (trace (compile_and_exec_form (Some f) ctx ns base cbo w)) = []).
Proof.
  intros Hv Hfalse.
  pose proof (bootstrap_spec (generator_context ctx) (py_ast_optimizer ctx) ns None w)
    as [Hs _].
  apply bootstrap_shape_facts in Hs as (Hp & Ha & _).
  apply getattr_module_returns in Hv as Eflag.
  assert (exists rest,
     trace (compile_and_exec_form (Some f) ctx ns base cbo w)
     = trace (_bootstrap_module (generator_context ctx) (py_ast_optimizer ctx) ns None w)
       ++ rest
     /\ forall e,
        outcome (_bootstrap_module (generator_context ctx) (py_ast_optimizer ctx) ns None w)
          = Raises e ->
        outcome (compile_and_exec_form (Some f) ctx ns base cbo w) = Raises e
        /\ world (compile_and_exec_form (Some f) ctx ns base cbo w)
           = world (_bootstrap_module (generator_context ctx) (py_ast_optimizer ctx)
                      ns None w)
        /\ rest = []) as (rest & Ht & Hfail).
  { unfold compile_and_exec_form.
    rewrite (bind_returns _ _ _ _ _ _ Eflag). cbn [outcome world trace fst snd app].
    rewrite Hfalse. cbn [negb].
    destruct (_bootstrap_module (generator_context ctx) (py_ast_optimizer ctx) ns None w)
      as [[[[]|e] w1] tb] eqn:Eb.
    - rewrite (bind_returns _ _ _ _ _ _ Eb). cbn [outcome world trace fst snd].
      eexists. split; [done|]. by intros e.
    - rewrite (bind_raises _ _ _ _ _ _ Eb). cbn [outcome world trace fst snd].
      exists []. split; [by rewrite app_nil_r|]. by intros e' [= <-]. }
  split; [by exists rest|]. split.
  - destruct (cef_spec f ctx ns base cbo w)
      as [[Hnil _]|(v' & tb & tu & tw & Ht' & Hv' & Hg & _ & _ & _ & Hcase)].
    + rewrite Ht in Hnil. apply app_eq_nil in Hnil as [Hnil _].
      by rewrite Hnil in Hp.
    + rewrite Hv in Hv'. injection Hv' as <-.
      destruct Hg as [[? _]|[_ ->]]; [congruence|].
      rewrite Ht', !preambles_app, Hp.
      destruct Hcase as [(-> & -> & _)|(ru & Hu & Hw)]; [done|].
      apply form_unit_shape_facts in Hu as (_ & -> & _).
      by destruct Hw as [(_ & _ & ->)|(_ & name & ->)].
  - intros e He. destruct (Hfail e He) as (? & ? & ->).
    rewrite Ht, app_nil_r. done.
Qed.

End MoreFormDriver.

Section WrapperResult.
Context `{H : Host}.

Lemma wrapper_block_trace ns n w :
  trace (try_finally (invoke ns n) (del_item ns n) w) = [EvInvoke ns n; EvDel ns n].
Proof.
  apply (wp_try_finally _ _ w (fun _ _ t => t = [EvInvoke ns n; EvDel ns n])).
  apply wp_invoke. intros r w1. by apply wp_del_item.
Qed.

Lemma wrapper_block_returns ns n w v w' t :
  try_finally (invoke ns n) (del_item ns n) w = (Returns v, w', t) ->
  exists fn w2,
    outcome (getattr_module ns n w) = Returns fn
    /\ py_call fn w = (Returns v, w2)
    /\ is_Some (w_modules w2 ns !! n)
    /\ w' = with_module ns (delete n (w_modules w2 ns)) w2.
Proof.
  unfold try_finally, invoke, bind, quiet, del_item.
  destruct (getattr_module ns n w) as [[[fn|e] w0] t0] eqn:Eg.
  - pose proof (getattr_module_returns ns n w fn) as Eg'. rewrite Eg in Eg'.
    specialize (Eg' eq_refl). injection Eg' as -> ->.
    destruct (py_call fn w) as [r w2] eqn:Ec.
    destruct (w_modules w2 ns !! n) as [x|] eqn:El; [|by intros [=]].
    intros [= -> <- _]. exists fn, w2. rewrite El. eauto.
  - destruct (w_modules w0 ns !! n); by intros [=].
Qed.

(** X9: when [compile_and_exec_form] returns a value for a form that is
    not [None], that value is what calling the object bound under the
    generated name returned, the call being made in the state the [exec] of
    the form's unit left; and the state on return is the state the call
    left with that one binding deleted from the module: every other binding,
    every other module and the rest of the process are as the call left
    them. *)
Theorem form_driver_returns_wrapper_result f ctx ns base cbo w v :
  outcome (compile_and_exec_form (Some f) ctx ns base cbo w) = Returns v ->
  exists name fn bytecode ran w0 w1 w2,
    invoked (trace (compile_and_exec_form (Some f) ctx ns base cbo w)) = [(ns, name)]
    /\ executed (trace (compile_and_exec_form (Some f) ctx ns base cbo w))
       = ran ++ [bytecode]
    /\ py_exec bytecode ns w0 = (Returns tt, w1)
    /\ outcome (getattr_module ns name w1) = Returns fn
    /\ py_call fn w1 = (Returns v, w2)
    /\ is_Some (w_modules w2 ns !! name)
    /\ world (compile_and_exec_form (Some f) ctx ns base cbo w)
       = with_module ns (delete name (w_modules w2 ns)) w2.
Proof.
  change (wp (compile_and_exec_form (Some f) ctx ns base cbo) w (fun r w' t =>
    r = Returns v ->
    exists name fn bytecode ran w0 w1 w2,
      invoked t = [(ns, name)] /\ executed t = ran ++ [bytecode]
      /\ py_exec bytecode ns w0 = (Returns tt, w1)
      /\ outcome (getattr_module ns name w1) = Returns fn
      /\ py_call fn w1 = (Returns v, w2)
      /\ is_Some (w_modules w2 ns !! name)
      /\ w' = with_module ns (delete name (w_modules w2 ns)) w2)).
  unfold compile_and_exec_form.
  apply wp_bind, wp_getattr_module; [|done].
  intros flag _. apply wp_bind. eapply wp_mono; [apply guard_facts|]. simpl.
  intros [[]|e] w1 tb (_ & _ & Hb & _); [|done].
  apply wp_bind, wp_quiet. intros r w2. destruct (genname base w1) as [n w2'].
  intros [= <- <-].
  apply wp_bind, wp_host. intros [lisp_ast|e] w3 _; [|done].
  apply wp_bind, wp_host. intros [py_ast|e] w4 _; [|done].
  apply wp_bind, wp_pure. destruct (optimizer_visit _ _) as [ast_module|e]; [|done].
  apply wp_bind, wp_emit. intros [[]|e] w5; [|done].
  apply wp_bind, wp_compile; [|done]. intros bytecode _.
  assert (forall (t0 : list Event) w6, invoked t0 = [] ->
    wp (host (EvExec ns bytecode) (py_exec bytecode ns) ;;;
        try_finally (invoke ns n) (del_item ns n)) w6
       (fun r w' t => r = Returns v ->
          exists name fn bytecode ran w0 w1 w2,
            invoked (t0 ++ t) = [(ns, name)] /\ executed (t0 ++ t) = ran ++ [bytecode]
            /\ py_exec bytecode ns w0 = (Returns tt, w1)
            /\ outcome (getattr_module ns name w1) = Returns fn
            /\ py_call fn w1 = (Returns v, w2)
            /\ is_Some (w_modules w2 ns !! name)
            /\ w' = with_module ns (delete name (w_modules w2 ns)) w2)) as Htail.
  { intros t0 w6 Ht0.
    apply wp_bind, wp_host. intros [[]|e] w7 Ex; [|done].
    unfold wp. rewrite wrapper_block_trace.
    destruct (try_finally (invoke ns n) (del_item ns n) w7) as [[r w8] t8] eqn:Eblock.
    cbn [outcome world fst snd]. intros ->.
    apply wrapper_block_returns in Eblock as (fn & w9 & ? & ? & ? & ?).
    exists n, fn, bytecode, (executed t0), w6, w7, w9.
    rewrite !invoked_app, !executed_app, Ht0. by repeat split. }
  apply wp_bind, wp_collect.
  - intros cb [[]|e] w6 _ _; [|done].
    eapply wp_mono; [apply (Htail (tb ++ [EvAnalyze (Some f)] ++ [EvGenerate lisp_ast]
                                     ++ [EvAssembled bytecode] ++ [EvCollect bytecode]))|].
    + by rewrite invoked_app, Hb.
    + simpl. intros r w7 t. by rewrite <-!app_assoc.
  - intros _.
    eapply wp_mono; [apply (Htail (tb ++ [EvAnalyze (Some f)] ++ [EvGenerate lisp_ast]
                                     ++ [EvAssembled bytecode]))|].
    + by rewrite invoked_app, Hb.
    + simpl. intros r w7 t. by rewrite <-!app_assoc.
Qed.

End WrapperResult.

Section FailingCollector.
Context `{H : Host}.

Lemma cmf_collector_raises ctx ns (cb : BytecodeCollector) form w :
  (forall c w0, raised (cb c w0).1) ->
  wp (compile_module_form ctx ns (Some cb) form) w
     (fun r _ t => raised r /\ executed t = [] /\ analyzed t = [form]
                   /\ collected t = assembled t).
Proof.
  intros Hcb. unfold compile_module_form, _incremental_compile_module.
  assert (forall e : Exn HostExn, raised (Raises e : Result unit)) as Hr
    by (intros e; by exists e).
  apply wp_bind, wp_host. intros [lisp_ast|e] w1 _; [|done].
  apply wp_bind, wp_host. intros [nodes|e] w2 _; [|done].
  apply wp_bind, wp_pure. destruct (optimizer_visit _ _) as [module|e]; [|done].
  apply wp_bind, wp_emit. intros [[]|e] w3; [|done].
  apply wp_bind, wp_compile; [|done]. intros c _.
  apply wp_bind, wp_collect; [|done].
  intros cb' r w4 [= <-] E. destruct (Hcb c w3) as [e He].
  rewrite E in He. simpl in He. by subst r.
Qed.

(** X10: with a collector that raises on every unit, no unit of a form is
    ever executed.  [compile_module] executes what the bootstrap step
    executes and nothing else, and stops at the first form, whose unit was
    assembled and handed to the collector; [compile_and_exec_form] never
    invokes a wrapper. *)
Theorem failing_collector_blocks_execution forms form ctx ns base
    (cb : BytecodeCollector) w :
  (forall c w0, raised (cb c w0).1) ->
  executed (trace (compile_module forms ctx ns (Some cb) w))
    = executed (trace (_bootstrap_module (generator_context ctx) (py_ast_optimizer ctx)
                         ns None w))
  /\ analyzed (trace (compile_module forms ctx ns (Some cb) w)) `prefix_of` take 1 forms
  /\ (forms <> [] -> raised (outcome (compile_module forms ctx ns (Some cb) w)))
  /\ invoked (trace (compile_and_exec_form form ctx ns base (Some cb) w)) = [].
Proof.
  intros Hcb.
  assert (forall w1,
    wp (for_each forms (compile_module_form ctx ns (Some cb))) w1
       (fun r _ t => executed t = [] /\ analyzed t `prefix_of` take 1 forms
                     /\ (forms <> [] -> raised r))) as Hloop.
  { intros w1. destruct forms as [|f rest]; [by repeat split|]. simpl.
    apply wp_bind. eapply wp_mono; [by apply cmf_collector_raises|]. simpl.
    intros [[]|e] w2 t ([e' ?] & He & Ha & _); [done|].
    rewrite Ha. repeat split; try done. by exists e. }
  pose proof (bootstrap_spec (generator_context ctx) (py_ast_optimizer ctx) ns None w)
    as [Hs _].
  pose proof (bootstrap_shape_facts _ _ _ _ Hs) as (_ & Ha & _).
  split; [|split; [|split]].
  - unfold compile_module.
    destruct (_bootstrap_module (generator_context ctx) (py_ast_optimizer ctx) ns None w)
      as [[[[]|e] w1] tb] eqn:Eb.
    + rewrite (bind_returns _ _ _ _ _ _ Eb). cbn [trace snd].
      destruct (Hloop w1) as (He & _). by rewrite executed_app, He, app_nil_r.
    + by rewrite (bind_raises _ _ _ _ _ _ Eb).
  - unfold compile_module.
    destruct (_bootstrap_module (generator_context ctx) (py_ast_optimizer ctx) ns None w)
      as [[[[]|e] w1] tb] eqn:Eb; cbn [trace snd] in Ha.
    + rewrite (bind_returns _ _ _ _ _ _ Eb). cbn [trace snd].
      destruct (Hloop w1) as (_ & Hp & _). by rewrite analyzed_app, Ha.
    + rewrite (bind_raises _ _ _ _ _ _ Eb). cbn [trace snd]. rewrite Ha. apply prefix_nil.
  - intros Hne. unfold compile_module.
    destruct (_bootstrap_module (generator_context ctx) (py_ast_optimizer ctx) ns None w)
      as [[[[]|e] w1] tb] eqn:Eb.
    + rewrite (bind_returns _ _ _ _ _ _ Eb). cbn [outcome fst].
      destruct (Hloop w1) as (_ & _ & Hr). by apply Hr.
    + rewrite (bind_raises _ _ _ _ _ _ Eb). by exists e.
  - change (wp (compile_and_exec_form form ctx ns base (Some cb)) w
              (fun _ _ t => invoked t = [])).
    destruct form as [f|]; [|done]. unfold compile_and_exec_form.
    apply wp_bind, wp_getattr_module; [|done].
    intros flag _. apply wp_bind. eapply wp_mono; [apply guard_facts|]. simpl.
    intros [[]|e] w1 tb (_ & _ & Hb & _); [|done].
    assert (forall t : list Event, invoked t = [] -> invoked (tb ++ t) = []) as Hquiet.
    { intros t Ht. by rewrite invoked_app, Hb, Ht. }
    apply wp_bind, wp_quiet. intros r w2. destruct (genname base w1) as [n w2'].
    intros [= <- <-].
    apply wp_bind, wp_host. intros [lisp_ast|e] w3 _; [|by (simpl; apply Hquiet)].
    apply wp_bind, wp_host. intros [py_ast|e] w4 _; [|by (simpl; apply Hquiet)].
    apply wp_bind, wp_pure.
    destruct (optimizer_visit _ _) as [ast_module|e]; [|by (simpl; apply Hquiet)].
    apply wp_bind, wp_emit. intros [[]|e] w5; [|by (simpl; apply Hquiet)].
    apply wp_bind, wp_compile; [|intros; by (simpl; apply Hquiet)]. intros bytecode _.
    apply wp_bind, wp_host.
    intros r w6 E. destruct (Hcb bytecode w5) as [e He].
    rewrite E in He. simpl in He. subst r. by (simpl; apply Hquiet).
Qed.

(** X11: a form the analyzer rejects ends [compile_module] there.  The
    exception is the analyzer's, the state is the one the analyzer left, and
    for that form nothing is generated, assembled, collected or executed;
    the forms before it were loaded, the forms after it are not looked at. *)
Theorem analysis_failure_stops_module forms1 form forms2 ctx ns cbo w e w2 :
  outcome (compile_module forms1 ctx ns cbo w) = Returns tt ->
  analyze_form (analyzer_context ctx) form (world (compile_module forms1 ctx ns cbo w))
    = (Raises e, w2) ->
  compile_module (forms1 ++ form :: forms2) ctx ns cbo w
    = (Raises e, w2, trace (compile_module forms1 ctx ns cbo w) ++ [EvAnalyze form]).
Proof.
  unfold compile_module.
  destruct (_bootstrap_module (generator_context ctx) (py_ast_optimizer ctx) ns None w)
    as [[[[]|e0] w0] tb] eqn:Eb.
  2:{ by rewrite !(bind_raises _ _ _ _ _ _ Eb). }
  rewrite !(bind_returns _ _ _ _ _ _ Eb), for_each_app. cbn [outcome world trace fst snd].
  destruct (for_each forms1 (compile_module_form ctx ns cbo) w0) as [[r1 w1] t1] eqn:El.
  cbn [outcome world trace fst snd]. intros -> Ea.
  rewrite (bind_returns _ _ _ _ _ _ El). simpl.
  assert (compile_module_form ctx ns cbo form w1 = (Raises e, w2, [EvAnalyze form])) as Ef.
  { unfold compile_module_form.
    assert (host (EvAnalyze form) (analyze_form (analyzer_context ctx) form) w1
            = (Raises e, w2, [EvAnalyze form])) as Eh by (unfold host; by rewrite Ea).
    by rewrite (bind_raises _ _ _ _ _ _ Eh). }
  rewrite (bind_raises _ _ _ _ _ _ Ef). cbn [outcome world trace fst snd].
  by rewrite app_assoc.
Qed.

End FailingCollector.

(** ** The small host: more concrete runs *)

Section MoreToyRuns.
Import Toy.

Lemma empty_input_bootstraps_witness :
  w_modules (world (compile_module [] toy_ctx 0 (Some keep_nothing) fresh)) 0
    !! BOOTSTRAPPED = Some (VBool true).
Proof.
  destruct (empty_input_bootstraps (H := toy_host) toy_ctx toy_gctx toy_optimizer 0
              (Some keep_nothing) fresh) as (_ & _ & _ & Hflag).
  apply Hflag. vm_compute. reflexivity.
Defined.

Lemma bootstrap_failure_stops_driver_witness :
  compile_module [Some (FNum 1)] toy_ctx 0 None bare
    = _bootstrap_module (generator_context toy_ctx) (py_ast_optimizer toy_ctx) 0 None bare
  /\ compile_bytecode [[NStmtExpr (EConst CNone)]] (generator_context toy_ctx)
       (py_ast_optimizer toy_ctx) 0 bare
     = _bootstrap_module (generator_context toy_ctx) (py_ast_optimizer toy_ctx) 0 None bare
  /\ analyzed (trace (compile_module [Some (FNum 1)] toy_ctx 0 None bare)) = []
  /\ EvSetBootstrapped 0 ∉ trace (compile_module [Some (FNum 1)] toy_ctx 0 None bare).
Proof.
  apply (bootstrap_failure_stops_driver (H := toy_host) [Some (FNum 1)]
           [[NStmtExpr (EConst CNone)]] toy_ctx 0 None bare
           (HostError "NameError: __builtins__")).
  vm_compute. reflexivity.
Defined.

Lemma compile_bytecode_in_order_witness :
  exists ran,
    ran = [[NAssign "x" (EConst (CNum 1))]] ++ [[NStmtExpr (EName "x")]]
    /\ trace (compile_bytecode
                ([[NAssign "x" (EConst (CNum 1))]] ++ [[NStmtExpr (EName "x")]])
                toy_gctx toy_optimizer 0 fresh)
       = trace (_bootstrap_module toy_gctx toy_optimizer 0 None fresh)
         ++ map (EvExec 0) ran.
Proof.
  destruct (compile_bytecode_in_order (H := toy_host)
              [[NAssign "x" (EConst (CNum 1))]] [[NStmtExpr (EName "x")]]
              toy_gctx toy_optimizer 0 fresh) as [_ (ran & _ & Ht & Hall)].
  exists ran. split; [|exact Ht].
  apply Hall. vm_compute. reflexivity.
Defined.

Lemma compile_module_runs_what_it_assembles_witness :
  executed (trace (compile_module [Some (FDef "x" 1); Some (FSym "x")] toy_ctx 0 None fresh))
    = assembled (trace (compile_module [Some (FDef "x" 1); Some (FSym "x")] toy_ctx 0
                          None fresh))
  /\ length (assembled (trace (compile_module [Some (FDef "x" 1); Some (FSym "x")]
                                 toy_ctx 0 None fresh))) = 3.
Proof.
  apply (proj2 (compile_module_runs_what_it_assembles (H := toy_host)
                  [Some (FDef "x" 1); Some (FSym "x")] toy_ctx 0 None fresh)).
  vm_compute. reflexivity.
Defined.

Lemma bootstrap_reports_to_its_collector_witness :
  length (collected (trace (_bootstrap_module toy_gctx toy_optimizer 0
                              (Some keep_nothing) fresh))) = 1.
Proof.
  destruct (bootstrap_reports_to_its_collector (H := toy_host) toy_gctx toy_optimizer 0
              keep_nothing fresh) as (_ & _ & Hone).
  apply Hone. vm_compute. reflexivity.
Defined.

Lemma form_driver_bootstraps_unflagged_witness :
  preambles (trace (compile_and_exec_form (Some (FNum 3)) toy_ctx 0 _DEFAULT_FN None fresh))
  = [0].
Proof.
  destruct (form_driver_bootstraps_unflagged (H := toy_host) (FNum 3) toy_ctx 0
              _DEFAULT_FN None fresh (VBool false)) as (_ & Hone & _).
  - vm_compute. reflexivity.
  - reflexivity.
  - exact Hone.
Defined.

Lemma form_driver_returns_wrapper_result_witness :
  exists name,
    invoked (trace (compile_and_exec_form (Some (FDef "x" 1)) toy_ctx 0 _DEFAULT_FN None
                      fresh)) = [(0, name)].
Proof.
  destruct (form_driver_returns_wrapper_result (H := toy_host) (FDef "x" 1) toy_ctx 0
              _DEFAULT_FN None fresh (VObj (ONum 1)))
    as (name & _ & _ & _ & _ & _ & _ & Hname & _).
  - vm_compute. reflexivity.
  - exists name. exact Hname.
Defined.

Lemma failing_collector_blocks_execution_witness :
  executed (trace (compile_module [Some (FDef "x" 1); Some (FSym "x")] toy_ctx 0
                     (Some failing_collector) fresh))
    = executed (trace (_bootstrap_module (generator_context toy_ctx)
                         (py_ast_optimizer toy_ctx) 0 None fresh))
  /\ invoked (trace (compile_and_exec_form (Some (FNum 3)) toy_ctx 0 _DEFAULT_FN
                       (Some failing_collector) fresh)) = [].
Proof.
  destruct (failing_collector_blocks_execution (H := toy_host)
              [Some (FDef "x" 1); Some (FSym "x")] (Some (FNum 3)) toy_ctx 0 _DEFAULT_FN
              failing_collector fresh) as (Hexec & _ & _ & Hnone).
  - intros c w0. by exists (HostError "cache is read-only").
  - split; [exact Hexec | exact Hnone].
Defined.

Lemma analysis_failure_stops_module_witness :
  compile_module ([Some (FDef "x" 1)] ++ Some FBad :: [Some (FSym "x")]) toy_ctx 0 None fresh
  = (Raises (HostError "CompilerException: analyzing"),
     world (compile_module [Some (FDef "x" 1)] toy_ctx 0 None fresh),
     trace (compile_module [Some (FDef "x" 1)] toy_ctx 0 None fresh)
       ++ [EvAnalyze (Some FBad)]).
Proof.
  apply (analysis_failure_stops_module (H := toy_host) [Some (FDef "x" 1)] (Some FBad)
           [Some (FSym "x")] toy_ctx 0 None fresh).
  - vm_compute. reflexivity.
  - reflexivity.
Defined.

End MoreToyRuns.
